(** * pyUSC3: the serial protocol client of the USC-3 laser controller

    A shallow embedding of [pyUSC3.py] (class [Usc3]) together with the
    properties of its wire format, its response handling, its device
    discovery and its two bit-packing computations.

    Python values are embedded as follows.
    - [int] is [Z] (unbounded).
    - [str] and [bytes] are both sequences of 8-bit characters, carried by
      [string]; the two Python types are kept apart by the constructors of
      [text], because Python never regards a [bytes] object as equal to a
      [str] object.
    - [None] is [None] of an [option].
    - Exceptions, the serial line, the list of visible ports and the console
      are threaded through a small state-and-error monad, [M]. *)

From Stdlib Require Import ZArith List String Ascii Bool Lia Permutation.
From Stdlib Require Import DecimalString DecimalPos.
Import ListNotations.

Open Scope list_scope.
Open Scope string_scope.
Open Scope Z_scope.

(* ===================================================================== *)
(** * The Python built-ins used by the module *)
(* ===================================================================== *)

Module Py.

(** The characters the module names. *)
Definition CR : ascii := "013"%char.
Definition LF : ascii := "010"%char.
Definition SP : ascii := " "%char.

(** ** Sequences of characters *)

Fixpoint all_chars (p : ascii -> bool) (s : string) : bool :=
  match s with
  | EmptyString => true
  | String c r => p c && all_chars p r
  end.

Definition has_char (c : ascii) (s : string) : bool :=
  negb (all_chars (fun x => negb (Ascii.eqb x c)) s).

Fixpoint take (n : nat) (s : string) : string :=
  match n, s with
  | S k, String c r => String c (take k r)
  | _, _ => EmptyString
  end.

Fixpoint drop (n : nat) (s : string) : string :=
  match n, s with
  | S k, String _ r => drop k r
  | _, _ => s
  end.

(** [len(s)] *)
Definition len (s : string) : Z := Z.of_nat (String.length s).

(** A slice bound is counted from the end when negative and then clipped to
    [0 .. len]. *)
Definition clip (k n : Z) : Z :=
  if k <? 0 then Z.max 0 (k + n) else Z.min k n.

(** [s[start:stop]] *)
Definition slice (start stop : Z) (s : string) : string :=
  let i := clip start (len s) in
  let j := clip stop (len s) in
  take (Z.to_nat (j - i)) (drop (Z.to_nat i) s).

(** [s.replace(old, new)] for a one-character [old]. *)
Fixpoint replace (old : ascii) (new : string) (s : string) : string :=
  match s with
  | EmptyString => EmptyString
  | String c r =>
      if Ascii.eqb c old then new ++ replace old new r
      else String c (replace old new r)
  end.

(** [s.split(sep)] for a one-character [sep]: every occurrence cuts, empty
    fields are kept, and the empty text splits into one empty field. *)
Fixpoint split (sep : ascii) (s : string) : list string :=
  match s with
  | EmptyString => [EmptyString]
  | String c r =>
      if Ascii.eqb c sep then EmptyString :: split sep r
      else match split sep r with
           | [] => [String c EmptyString]
           | f :: fs => String c f :: fs
           end
  end.

(** [sep.join(l)] *)
Definition join (sep : string) (l : list string) : string :=
  String.concat sep l.

(** ** Lists *)

(** [l[i]], with a negative index counted from the end; [None] stands for
    [IndexError]. *)
Definition getitem {A : Type} (l : list A) (i : Z) : option A :=
  let n := Z.of_nat (List.length l) in
  let j := if i <? 0 then i + n else i in
  if (0 <=? j) && (j <? n) then nth_error l (Z.to_nat j) else None.

(** [sum(l)] of a list of integers: a left-to-right accumulation from 0. *)
Definition sum (l : list Z) : Z := fold_left Z.add l 0.

(** ** Integers and their text *)

(** [str(n)] and [repr(n)] of an integer: base 10, no leading zeros, a
    leading [-] for negatives. *)
Definition str_int (n : Z) : string :=
  NilEmpty.string_of_int (Z.to_int n).

(** [str(l)] of a list of integers. *)
Definition str_list (l : list Z) : string :=
  "[" ++ join ", " (map str_int l) ++ "]".

Definition is_space (c : ascii) : bool :=
  let n := nat_of_ascii c in
  ((9 <=? n) && (n <=? 13))%nat || (n =? 32)%nat.

Fixpoint lstrip (s : string) : string :=
  match s with
  | EmptyString => EmptyString
  | String c r => if is_space c then lstrip r else s
  end.

Fixpoint rstrip (s : string) : string :=
  match s with
  | EmptyString => EmptyString
  | String c r =>
      match rstrip r with
      | EmptyString => if is_space c then EmptyString else String c EmptyString
      | r' => String c r'
      end
  end.

Definition strip (s : string) : string := rstrip (lstrip s).

Definition UNDERSCORE : ascii := "_"%char.

(** The digit groups of an integer literal may be separated by single
    underscores, never leading, trailing or doubled. *)
Fixpoint ungroup (after_digit : bool) (s : string) : option string :=
  match s with
  | EmptyString => if after_digit then Some EmptyString else None
  | String c r =>
      if Ascii.eqb c UNDERSCORE then
        if after_digit then ungroup false r else None
      else option_map (String c) (ungroup true r)
  end.

Definition digits (s : string) : option Z :=
  match ungroup false s with
  | None => None
  | Some d => option_map Z.of_uint (NilEmpty.uint_of_string d)
  end.

(** [int(s)] of a text: surrounding white space is dropped, then an
    optional sign and a non-empty run of decimal digits are read; [None]
    stands for [ValueError]. *)
Definition int (s : string) : option Z :=
  match strip s with
  | EmptyString => None
  | String c r =>
      if Ascii.eqb c "-" then option_map Z.opp (digits r)
      else if Ascii.eqb c "+" then digits r
      else digits (String c r)
  end.

(** [bytes(s, 'Ascii')]: every character must be below 128; [None] stands
    for [UnicodeEncodeError]. *)
Definition bytes_ascii (s : string) : option string :=
  if all_chars (fun c => (nat_of_ascii c <? 128)%nat) s then Some s else None.

(** [2 ** e] is an integer for [e >= 0]; for a negative exponent Python
    yields a float, which this embedding does not represent ([None]). *)
Definition pow2 (e : Z) : option Z :=
  if 0 <=? e then Some (2 ^ e) else None.

End Py.

(* ===================================================================== *)
(** * Effects: the serial line, the visible ports, the console *)
(* ===================================================================== *)

(** What [serial.tools.list_ports] reports for one port: the attributes the
    module reads. [vid] and [serial_number] are [None] for a port that is
    not a USB device. *)
Module list_ports.

Record ListPortInfo := {
  device : string;
  vid : option Z;
  serial_number : option string
}.

End list_ports.

(** An open [serial.Serial] object. *)
Record Serial := { ser_port : string; ser_baudrate : Z }.

(** Everything outside the client that its methods read or change. *)
Record world := {
  visible : list list_ports.ListPortInfo; (* the ports the host enumerates *)
  opened : list Serial;                   (* ports opened so far, oldest first *)
  stdout : list string;                   (* lines printed so far *)
  tx : string;                            (* bytes written to the line so far *)
  rx : string                             (* bytes the device has yet to deliver *)
}.

Inductive exn :=
| IndexError | KeyError | TypeError | ValueError | AttributeError
| UnicodeEncodeError.

(** How a call ends: it returns, it raises, or it waits for ever on the
    line; each of these carries the world as the call left it. [Float]
    marks the point where a call computes a float: Python goes on from
    there (with the text of the float where an integer was meant), but
    floats are outside this embedding, so nothing is said about what the
    call does next; [Float] carries the world as it was at that point. *)
Inductive outcome (A : Type) :=
| Return (a : A) (w : world)
| Raise (e : exn) (w : world)
| Blocked (w : world)
| Float (w : world).

Arguments Return {A} a w.
Arguments Raise {A} e w.
Arguments Blocked {A} w.
Arguments Float {A} w.

Definition M (A : Type) : Type := world -> outcome A.

Definition ret {A} (a : A) : M A := fun w => Return a w.

Definition bind {A B} (m : M A) (k : A -> M B) : M B :=
  fun w =>
    match m w with
    | Return a w' => k a w'
    | Raise e w' => Raise e w'
    | Blocked w' => Blocked w'
    | Float w' => Float w'
    end.

Definition raise {A} (e : exn) : M A := fun w => Raise e w.

Definition float_result {A} : M A := fun w => Float w.

(** An optional result, raising [e] when it is absent. *)
Definition or_raise {A} (e : exn) (o : option A) : M A :=
  match o with Some a => ret a | None => raise e end.

Declare Scope py_scope.
Delimit Scope py_scope with py.
Notation "x <- m ;; k" := (bind m (fun x => k))
  (at level 61, m at next level, right associativity) : py_scope.
Notation "m ;; k" := (bind m (fun _ => k))
  (at level 61, right associativity) : py_scope.
Open Scope py_scope.

(** [list_ports.comports()] *)
Definition comports : M (list list_ports.ListPortInfo) :=
  fun w => Return (visible w) w.

(** [serial.Serial(port=..., baudrate=...)]: the open is recorded; failures
    of the transport itself are not modelled. *)
Definition Serial_open (port : string) (baudrate : Z) : M Serial :=
  fun w =>
    let s := {| ser_port := port; ser_baudrate := baudrate |} in
    Return s {| visible := visible w; opened := (opened w ++ [s])%list;
                stdout := stdout w; tx := tx w; rx := rx w |}.

(** [print(line)] *)
Definition print (line : string) : M unit :=
  fun w =>
    Return tt {| visible := visible w; opened := opened w;
                 stdout := (stdout w ++ [line])%list; tx := tx w; rx := rx w |}.

(** [Serial.write(data)]: the bytes go out in order; the count is returned. *)
Definition Serial_write (data : string) : M Z :=
  fun w =>
    Return (Py.len data)
           {| visible := visible w; opened := opened w; stdout := stdout w;
              tx := tx w ++ data; rx := rx w |}.

(** The pending bytes up to and including the first occurrence of
    [expected], and the bytes after it. An empty [expected] never matches. *)
Fixpoint cut_after (expected : string) (s : string) : option (string * string) :=
  match s with
  | EmptyString => None
  | String c r =>
      if negb (String.eqb expected EmptyString) && String.prefix expected s
      then Some (expected, Py.drop (String.length expected) s)
      else match cut_after expected r with
           | Some (line, rest) => Some (String c line, rest)
           | None => None
           end
  end.

(** [Serial.read_until(expected)] on a port without a timeout: it returns
    the bytes up to and including the terminator, and never returns when
    the terminator does not arrive. *)
Definition Serial_read_until (expected : string) : M string :=
  fun w =>
    match cut_after expected (rx w) with
    | Some (line, rest) =>
        Return line {| visible := visible w; opened := opened w;
                       stdout := stdout w; tx := tx w; rx := rest |}
    | None => Blocked w
    end.

(* ===================================================================== *)
(** * The module [pyUSC3] *)
(* ===================================================================== *)

Definition SCAPS_BAUD_RATE : Z := 115200.

(** A text object is a [str] or a [bytes]. *)
Inductive text :=
| Str (s : string)
| Bytes (b : string).

(** [a == b] on text objects: a [str] never equals a [bytes]. *)
Definition text_eqb (a b : text) : bool :=
  match a, b with
  | Str x, Str y => String.eqb x y
  | Bytes x, Bytes y => String.eqb x y
  | _, _ => false
  end.

(** [key in d] and [d[key]] for a dict with text keys. *)
Definition dict_in {V} (key : text) (d : list (text * V)) : bool :=
  existsb (fun kv => text_eqb key (fst kv)) d.

Definition dict_get {V} (d : list (text * V)) (key : text) : option V :=
  option_map snd (find (fun kv => text_eqb key (fst kv)) d).

(** What a caller passes as [val]: an integer or a list of integers. *)
Inductive param :=
| Int (n : Z)
| Seq (v : list Z).

(** [str(val)] *)
Definition str (val : param) : string :=
  match val with
  | Int n => Py.str_int n
  | Seq v => Py.str_list v
  end.

Fixpoint all_some {A} (l : list (option A)) : option (list A) :=
  match l with
  | [] => Some []
  | None :: _ => None
  | Some a :: r => option_map (cons a) (all_some r)
  end.

Module Usc3.

Definition _trm : string := String Py.CR (String Py.LF EmptyString).
Definition _dlm : string := " ".
Definition _end : string := String Py.LF EmptyString.

Definition comm_codes : list (text * text) :=
  [ (Str "0", Str "Success");
    (Str "1", Str "Too many parameters");
    (Str "2", Str "Too few parameters");
    (Str "3", Str "Unknown command");
    (Str "4", Str "Job not valid");
    (Str "5", Str "Operation not allowed during marking");
    (Str "6", Str "Entity not found");
    (Str "7", Str "Not initialized");
    (Str "8", Str "Parameter out of range");
    (Str "9", Str "Internal error");
    (Str "10", Str "Operation not allowed");
    (Str "11", Str "The internal queue is full and cannot accept any more commands");
    (Str "12", Str "Command not available, probably due to missing Flash license");
    (Str "13", Str "Out of memory");
    (Str "14", Str "Job already exists");
    (Str "15", Str "File not found");
    (Str "16", Str "Command removed");
    (Str "17", Str "Wrong parameter type");
    (Str "18", Str "SN increment must be 0") ].

(** The attributes of a client object; [serial] is [None] when [connect]
    returned [None]. *)
Record self_ := {
  serial_number : option string;
  port : option string;
  serial : option Serial
}.

(** One entry of [devices] in [_port_seek]. *)
Record device_entry := {
  PORT : string;
  VID : option Z;
  SN : option string
}.

Definition VID_is (d : device_entry) (v : Z) : bool :=
  match VID d with Some x => x =? v | None => false end.

Definition SN_is (d : device_entry) (sn : string) : bool :=
  match SN d with Some x => String.eqb x sn | None => false end.

(** The list comprehension selecting [port_list]. *)
Definition port_list (self : self_) (devices : list device_entry) : list string :=
  match serial_number self with
  | None => map PORT (filter (fun device => VID_is device 0x2341) devices)
  | Some sn => map PORT (filter (fun device => SN_is device sn) devices)
  end.

(** The list comprehension building [devices]. *)
Definition devices (comports : list list_ports.ListPortInfo)
  : list device_entry :=
  map (fun port => {| PORT := list_ports.device port;
                      VID := list_ports.vid port;
                      SN := list_ports.serial_number port |}) comports.

Definition _port_seek (self : self_) : M string :=
  comports <- comports ;;
  let devices := devices comports in
  or_raise IndexError (Py.getitem (port_list self devices) (-1)).

Definition _send (self : self_) (byte_string : string) : M Z :=
  match serial self with
  | Some _ => Serial_write byte_string
  | None => raise AttributeError
  end.

Definition _recv (self : self_) : M string :=
  match serial self with
  | Some _ => Serial_read_until _end
  | None => raise AttributeError
  end.

(** The bytes [_execute_command] hands to [_send]; [None] stands for the
    [UnicodeEncodeError] of [bytes(..., 'Ascii')]. *)
Definition to_write (data : string) (val : option param) : option string :=
  match val with
  | None => Some (data ++ _trm)
  | Some v =>
      match Py.bytes_ascii (Py.replace "," "" (Py.slice 1 (-1) (str v))) with
      | Some b => Some (data ++ (_dlm ++ b) ++ _trm)
      | None => None
      end
  end.

Definition _execute_command (self : self_) (data : string) (val : option param)
  : M text :=
  to_write <- or_raise UnicodeEncodeError (to_write data val) ;;
  _send self to_write ;;
  response <- _recv self ;;
  if dict_in (Bytes response) comm_codes
  then or_raise KeyError (dict_get comm_codes (Bytes response))
  else ret (Bytes response).

(** [connect] returns the opened port, or [None] after printing its
    message, together with the client as it leaves it. *)
Definition connect (self : self_) : M (option Serial * self_) :=
  usc3_port <- _port_seek self ;;
  if Py.len usc3_port =? 0 then
    print "USC-3 Laser Control Device Not Found." ;;
    ret (None, self)
  else
    let self' := {| serial_number := serial_number self;
                    port := Some usc3_port;
                    serial := serial self |} in
    usc3_serial <- Serial_open usc3_port SCAPS_BAUD_RATE ;;
    ret (Some usc3_serial, self').

Definition __init__ (serial_number_ : option string) (port_ : option string)
  : M self_ :=
  let self := {| serial_number := serial_number_; port := port_;
                 serial := None |} in
  match port_ with
  | None =>
      r <- connect self ;;
      ret {| serial_number := serial_number (snd r); port := port (snd r);
             serial := fst r |}
  | Some p =>
      s <- Serial_open p SCAPS_BAUD_RATE ;;
      ret {| serial_number := serial_number_; port := port_; serial := Some s |}
  end.

Definition get_mark_time (self : self_) : M text :=
  _execute_command self "GTI 0" None.

Definition save (self : self_) : M text := _execute_command self "SVG" None.

Definition load (self : self_) : M text := _execute_command self "LDG" None.

Definition get_temperature (self : self_) : M text :=
  _execute_command self "GUT" None.

(** [[int(n) for n in s.split(' ')]]; [None] stands for the [ValueError] of
    a field that is not an integer. *)
Definition int_fields (s : string) : option (list Z) :=
  all_some (map Py.int (Py.split " " s)).

(** [split] with a [str] separator is defined on a [str] only and raises
    [TypeError] on a [bytes]. *)
Definition get_home_position (self : self_) : M (list Z) :=
  r <- _execute_command self "HP" None ;;
  match r with
  | Str s => or_raise ValueError (int_fields s)
  | Bytes _ => raise TypeError
  end.

Definition set_home_position (self : self_) (vector : list Z) : M text :=
  _execute_command self "HP" (Some (Seq vector)).

Definition get_digital_out (self : self_) : M text :=
  _execute_command self "OOF" None.

Definition set_digital_out (self : self_) (binary_value : Z) : M text :=
  _execute_command self "OOF" (Some (Int binary_value)).

Definition get_digital_in (self : self_) : M text :=
  _execute_command self "OIF" None.

Definition get_analog_in (self : self_) (address : Z) : M text :=
  _execute_command self "AIN" (Some (Int address)).

Definition get_pulse (self : self_) : M text :=
  _execute_command self "LPJ" None.

(** [pins = sum([2**(pin-1) for pin in output_list])]; [None] when a power
    is a float. *)
Definition pins (output_list : list Z) : option Z :=
  option_map Py.sum (all_some (map (fun pin => Py.pow2 (pin - 1)) output_list)).

(** When [pins] is a float the call leaves the embedding at that point
    ([Float]): the code itself goes on to [_execute_command] with it. *)
Definition set_pulse {W : Type} (self : self_) (output_list : list Z)
  (pulse_width : W) : M text :=
  match pins output_list with
  | Some pins => _execute_command self "LPJ" (Some (Int pins))
  | None => float_result
  end.

Definition run (self : self_) : M text :=
  _execute_command self "M" (Some (Int 1)).

Definition stop (self : self_) : M text :=
  _execute_command self "M" (Some (Int 0)).

Definition get_loop_count (self : self_) : M text :=
  _execute_command self "LC" None.

(** [num_loops] defaults to 1. *)
Definition set_loop_count (self : self_) (num_loops : Z) : M text :=
  _execute_command self "AC" (Some (Int num_loops)).

(** The word [input_pin+trigger_mode] given to the [FLAGS] command. *)
Definition flags_word (input_pin trigger_mode : Z) : Z :=
  input_pin + trigger_mode.

(** [input_pin] defaults to 6 and [trigger_mode] to [0x10]. *)
Definition set_laser_disable_flag (self : self_) (input_pin trigger_mode : Z)
  : M text :=
  _execute_command self "FLAGS" (Some (Int (flags_word input_pin trigger_mode))).

End Usc3.

(** The world and the bytes on the line that a call leaves behind. *)
Definition world_of {A} (o : outcome A) : world :=
  match o with
  | Return _ w | Raise _ w | Blocked w | Float w => w
  end.

Definition written {A} (o : outcome A) : string := tx (world_of o).

(** A client on an open port, and a world in which the device is about to
    deliver [reply] on that port. *)
Definition a_port : Serial :=
  {| ser_port := "/dev/ttyACM0"; ser_baudrate := SCAPS_BAUD_RATE |}.

Definition a_client : Usc3.self_ :=
  {| Usc3.serial_number := None; Usc3.port := Some "/dev/ttyACM0";
     Usc3.serial := Some a_port |}.

Definition a_line (reply : string) : world :=
  {| visible := []; opened := [a_port]; stdout := []; tx := ""; rx := reply |}.

Definition LF_ (s : string) : string := s ++ String Py.LF "".
Definition CRLF_ (s : string) : string := s ++ String Py.CR (String Py.LF "").

(** A client fresh from the constructor's first lines, and a host with four
    ports, two of them with the vendor id 0x2341, or with no port at all. *)
Definition new_client (serial_number : option string) : Usc3.self_ :=
  {| Usc3.serial_number := serial_number; Usc3.port := None;
     Usc3.serial := None |}.

Definition four_ports : list list_ports.ListPortInfo :=
  [ {| list_ports.device := "/dev/ttyS0"; list_ports.vid := None;
       list_ports.serial_number := None |};
    {| list_ports.device := "/dev/ttyACM0"; list_ports.vid := Some 0x2341;
       list_ports.serial_number := Some "A1" |};
    {| list_ports.device := "/dev/ttyACM1"; list_ports.vid := Some 0x2341;
       list_ports.serial_number := Some "B2" |};
    {| list_ports.device := "/dev/ttyUSB0"; list_ports.vid := Some 0x0403;
       list_ports.serial_number := Some "C3" |} ].

Definition a_host (ports : list list_ports.ListPortInfo) : world :=
  {| visible := ports; opened := []; stdout := []; tx := ""; rx := "" |}.

(** The four ports of [four_ports], by name. *)
Definition ttyS0 : list_ports.ListPortInfo :=
  {| list_ports.device := "/dev/ttyS0"; list_ports.vid := None;
     list_ports.serial_number := None |}.

Definition ttyACM0 : list_ports.ListPortInfo :=
  {| list_ports.device := "/dev/ttyACM0"; list_ports.vid := Some 0x2341;
     list_ports.serial_number := Some "A1" |}.

Definition ttyACM1 : list_ports.ListPortInfo :=
  {| list_ports.device := "/dev/ttyACM1"; list_ports.vid := Some 0x2341;
     list_ports.serial_number := Some "B2" |}.

Definition ttyUSB0 : list_ports.ListPortInfo :=
  {| list_ports.device := "/dev/ttyUSB0"; list_ports.vid := Some 0x0403;
     list_ports.serial_number := Some "C3" |}.

(** The port discovery is to select, in the words of the specification,
    stated on what the host reports for the port: its serial number is the
    client's, character for character, when the client has one; otherwise
    its vendor id is 0x2341. *)
Definition is_target (self : Usc3.self_) (p : list_ports.ListPortInfo)
  : Prop :=
  match Usc3.serial_number self with
  | Some sn => list_ports.serial_number p = Some sn
  | None => list_ports.vid p = Some 0x2341
  end.

(** Whether [_port_seek] keeps a device: by serial number when the client
    has one, by the vendor id otherwise. *)
Definition wanted (self : Usc3.self_) (d : Usc3.device_entry) : bool :=
  match Usc3.serial_number self with
  | None => Usc3.VID_is d 0x2341
  | Some sn => Usc3.SN_is d sn
  end.

(** The mask as the specification words it: the sum, over the pins [p] of
    [S], of [2^(p-1)]. *)
Definition mask_of_pins (S : list Z) : Z :=
  fold_right (fun p acc => 2 ^ (p - 1) + acc) 0 S.

(** The text [_execute_command] puts between the opcode and the terminator:
    nothing without a parameter, otherwise a space and [str(val)] without
    its first and last character and without commas. *)
Definition param_text (val : option param) : string :=
  match val with
  | None => ""
  | Some (Int n) => " " ++ Py.slice 1 (-1) (Py.str_int n)
  | Some (Seq v) => " " ++ Py.join " " (map Py.str_int v)
  end.

(** The world [w] with other bytes on the line. *)
Definition on_line (w : world) (sent pending : string) : world :=
  {| visible := visible w; opened := opened w; stdout := stdout w;
     tx := sent; rx := pending |}.

(** Two commands, one after the other, on the same client. *)
Definition two_commands (self : Usc3.self_) (data1 : string)
  (val1 : option param) (data2 : string) (val2 : option param)
  : M (text * text) :=
  r1 <- Usc3._execute_command self data1 val1 ;;
  r2 <- Usc3._execute_command self data2 val2 ;;
  ret (r1, r2).

(** Character classes used in the statements. *)
Definition is_digit (c : ascii) : bool :=
  let n := nat_of_ascii c in ((48 <=? n) && (n <=? 57))%nat.

Definition numeral_char (c : ascii) : bool :=
  is_digit c || Ascii.eqb c "-".

(** Neither a bracket nor a comma. *)
Definition plain_char (c : ascii) : bool :=
  negb (Ascii.eqb c "[" || Ascii.eqb c "]" || Ascii.eqb c ",").

Definition plain (s : string) : bool := Py.all_chars plain_char s.

(* ===================================================================== *)
(** * Facts about the built-ins *)
(* ===================================================================== *)

Example py_terminators :
  nat_of_ascii Py.CR = 13%nat /\ nat_of_ascii Py.LF = 10%nat
  /\ String.length Usc3._trm = 2%nat /\ String.length Usc3._end = 1%nat.
Proof. repeat split; reflexivity. Qed.

Example py_slice_list : Py.slice 1 (-1) "[1, 2, 3]" = "1, 2, 3".
Proof. reflexivity. Qed.

Example py_slice_two : Py.slice 1 (-1) "50" = "".
Proof. reflexivity. Qed.

Example py_split_spaces : Py.split " " "10 20  30" = ["10"; "20"; ""; "30"].
Proof. reflexivity. Qed.

Example py_split_empty : Py.split " " "" = [""].
Proof. reflexivity. Qed.

Example py_int_examples :
  Py.int "30" = Some 30 /\ Py.int " -7 " = Some (-7) /\ Py.int "" = None
  /\ Py.int "1_000" = Some 1000 /\ Py.int "1__0" = None /\ Py.int "-" = None
  /\ Py.int "007" = Some 7.
Proof. repeat split; reflexivity. Qed.

Example py_str_examples :
  Py.str_int 0 = "0" /\ Py.str_int (-12) = "-12"
  /\ Py.str_list [10; -20; 30] = "[10, -20, 30]" /\ Py.str_list [] = "[]".
Proof. repeat split; reflexivity. Qed.

Section CharacterSequences.

Variable p : ascii -> bool.

Lemma all_chars_app (a b : string) :
  Py.all_chars p (a ++ b) = Py.all_chars p a && Py.all_chars p b.
Proof.
  induction a as [|c a IH]; simpl; [reflexivity|].
  now rewrite IH, andb_assoc.
Qed.

Lemma all_chars_impl (q : ascii -> bool) (s : string) :
  (forall c, p c = true -> q c = true) ->
  Py.all_chars p s = true -> Py.all_chars q s = true.
Proof.
  intros Hpq. induction s as [|c s IH]; simpl; [reflexivity|].
  rewrite !andb_true_iff. intros [Hc Hs]. split; auto.
Qed.

Lemma all_chars_take (n : nat) (s : string) :
  Py.all_chars p s = true -> Py.all_chars p (Py.take n s) = true.
Proof.
  revert s. induction n as [|n IH]; intros [|c s]; simpl; try reflexivity.
  rewrite !andb_true_iff. intros [Hc Hs]. split; auto.
Qed.

Lemma all_chars_drop (n : nat) (s : string) :
  Py.all_chars p s = true -> Py.all_chars p (Py.drop n s) = true.
Proof.
  revert s. induction n as [|n IH]; intros [|c s]; simpl; try tauto.
  rewrite andb_true_iff. intros [_ Hs]. auto.
Qed.

Lemma all_chars_slice (i j : Z) (s : string) :
  Py.all_chars p s = true -> Py.all_chars p (Py.slice i j s) = true.
Proof.
  intros H. unfold Py.slice. now apply all_chars_take, all_chars_drop.
Qed.

Lemma all_chars_remove (old : ascii) (s : string) :
  Py.all_chars p s = true -> Py.all_chars p (Py.replace old "" s) = true.
Proof.
  induction s as [|c s IH]; simpl; [reflexivity|].
  rewrite andb_true_iff. intros [Hc Hs].
  destruct (Ascii.eqb c old); simpl; auto.
  now rewrite Hc, IH.
Qed.

End CharacterSequences.

Lemma append_nil_r (s : string) : s ++ "" = s.
Proof. induction s as [|c s IH]; simpl; congruence. Qed.

Lemma append_assoc (a b c : string) : (a ++ b) ++ c = a ++ b ++ c.
Proof. induction a as [|x a IH]; simpl; congruence. Qed.

Lemma length_append (a b : string) :
  String.length (a ++ b) = (String.length a + String.length b)%nat.
Proof. induction a as [|x a IH]; simpl; congruence. Qed.

Lemma take_append (a b : string) : Py.take (String.length a) (a ++ b) = a.
Proof. induction a as [|x a IH]; simpl; [now destruct b|congruence]. Qed.

(** Dropping the first and the last character of a bracketed text leaves
    what the brackets enclose. *)
Lemma slice_unwrap (l r : ascii) (s : string) :
  Py.slice 1 (-1) (String l (s ++ String r "")) = s.
Proof.
  unfold Py.slice, Py.len, Py.clip. simpl String.length.
  rewrite length_append. simpl String.length.
  replace (1 <? 0) with false by reflexivity.
  replace (-1 <? 0) with true by reflexivity.
  rewrite Z.min_l by lia. rewrite Z.max_r by lia.
  change (Z.to_nat 1) with 1%nat. simpl Py.drop.
  replace (Z.to_nat _) with (String.length s) by lia.
  apply take_append.
Qed.

(** A slice [1:-1] is shorter than a non-empty text. *)
Lemma length_take (n : nat) (s : string) :
  (String.length (Py.take n s) <= n)%nat.
Proof.
  revert s. induction n as [|n IH]; intros [|c s]; simpl; try lia.
  specialize (IH s). lia.
Qed.

Lemma slice_shorter (s : string) :
  s <> "" -> (String.length (Py.slice 1 (-1) s) < String.length s)%nat.
Proof.
  intros Hs. destruct s as [|c s]; [congruence|].
  unfold Py.slice. set (k := Z.to_nat _).
  assert (Hk : (k <= String.length s)%nat).
  { subst k. unfold Py.len, Py.clip. simpl String.length.
    replace (1 <? 0) with false by reflexivity.
    replace (-1 <? 0) with true by reflexivity. lia. }
  pose proof (length_take k (Py.drop (Z.to_nat (Py.clip 1 (Py.len (String c s))))
                                     (String c s))).
  simpl String.length. lia.
Qed.

Section Joining.

(** Removing the commas of [", ".join(l)] gives [" ".join(l)] when no
    element holds a comma. *)
Lemma remove_absent (c : ascii) (s : string) :
  Py.has_char c s = false -> Py.replace c "" s = s.
Proof.
  unfold Py.has_char. rewrite negb_false_iff.
  induction s as [|x s IH]; simpl; [reflexivity|].
  rewrite andb_true_iff, negb_true_iff. intros [Hx Hs].
  rewrite Hx. now rewrite IH.
Qed.

Lemma replace_app (c : ascii) (a b : string) :
  Py.replace c "" (a ++ b) = Py.replace c "" a ++ Py.replace c "" b.
Proof.
  induction a as [|x a IH]; simpl; [reflexivity|].
  destruct (Ascii.eqb x c); simpl; congruence.
Qed.

Lemma remove_commas_join (l : list string) :
  Forall (fun s => Py.has_char "," s = false) l ->
  Py.replace "," "" (Py.join ", " l) = Py.join " " l.
Proof.
  unfold Py.join.
  induction 1 as [|s l Hs Hl IH]; [reflexivity|].
  destruct l as [|t l].
  - simpl. now apply remove_absent.
  - change (String.concat ", " (s :: t :: l))
      with (s ++ ", " ++ String.concat ", " (t :: l)).
    change (String.concat " " (s :: t :: l))
      with (s ++ " " ++ String.concat " " (t :: l)).
    rewrite !replace_app, IH, remove_absent by assumption.
    reflexivity.
Qed.

(** Splitting [" ".join(l)] at the spaces gives back a non-empty [l]
    whose elements hold no space. *)
Lemma split_absent (c : ascii) (s : string) :
  Py.has_char c s = false -> Py.split c s = [s].
Proof.
  unfold Py.has_char. rewrite negb_false_iff.
  induction s as [|x s IH]; simpl; [reflexivity|].
  rewrite andb_true_iff, negb_true_iff. intros [Hx Hs].
  rewrite Hx. now rewrite IH.
Qed.

Lemma split_app (c : ascii) (a b : string) :
  Py.has_char c a = false ->
  Py.split c (a ++ String c b) = a :: Py.split c b.
Proof.
  unfold Py.has_char. rewrite negb_false_iff.
  induction a as [|x a IH]; simpl.
  - intros _. now rewrite Ascii.eqb_refl.
  - rewrite andb_true_iff, negb_true_iff. intros [Hx Ha].
    rewrite Hx. now rewrite IH.
Qed.

Lemma split_join (l : list string) :
  l <> [] ->
  Forall (fun s => Py.has_char " " s = false) l ->
  Py.split " " (Py.join " " l) = l.
Proof.
  unfold Py.join. intros Hne H.
  induction H as [|s l Hs Hl IH]; [congruence|].
  destruct l as [|t l].
  - simpl. now apply split_absent.
  - change (String.concat " " (s :: t :: l))
      with (s ++ String " " (String.concat " " (t :: l))).
    rewrite split_app by assumption.
    f_equal. apply IH. discriminate.
Qed.

End Joining.

Section DecimalText.

(** Consequences of being a digit or a minus sign. *)
Lemma numeral_char_facts (c : ascii) :
  numeral_char c = true ->
  Py.is_space c = false /\ Ascii.eqb c Py.UNDERSCORE = false
  /\ Ascii.eqb c "," = false /\ Ascii.eqb c " " = false
  /\ plain_char c = true /\ (nat_of_ascii c <? 128)%nat = true.
Proof.
  destruct c as [[|] [|] [|] [|] [|] [|] [|] [|]]; vm_compute;
    intros H; try discriminate H; repeat split.
Qed.

Lemma uint_text_digits (d : Decimal.uint) :
  Py.all_chars is_digit (NilEmpty.string_of_uint d) = true.
Proof. induction d; simpl; auto. Qed.

Lemma str_int_chars (n : Z) : Py.all_chars numeral_char (Py.str_int n) = true.
Proof.
  assert (H : forall d, Py.all_chars numeral_char (NilEmpty.string_of_uint d) = true).
  { intros d. apply all_chars_impl with (p := is_digit).
    - intros c Hc. unfold numeral_char. now rewrite Hc.
    - apply uint_text_digits. }
  unfold Py.str_int. destruct n; simpl; auto.
Qed.

Lemma uint_text_nonempty (d : Decimal.uint) :
  d <> Decimal.Nil -> NilEmpty.string_of_uint d <> "".
Proof. destruct d; simpl; congruence. Qed.

Lemma str_int_nonempty (n : Z) : Py.str_int n <> "".
Proof.
  unfold Py.str_int. destruct n as [|q|q]; simpl; try discriminate.
  apply uint_text_nonempty, DecimalPos.Unsigned.to_uint_nonnil.
Qed.

Lemma str_int_no (c : ascii) (n : Z) :
  numeral_char c = false -> Py.has_char c (Py.str_int n) = false.
Proof.
  intros Hc. unfold Py.has_char. rewrite negb_false_iff.
  apply all_chars_impl with (p := numeral_char); [|apply str_int_chars].
  intros x Hx. rewrite negb_true_iff.
  destruct (Ascii.eqb_spec x c) as [->|]; congruence.
Qed.

(** White space is stripped from the ends only, so a text without any is
    left alone. *)
Lemma rstrip_id (s : string) :
  Py.all_chars (fun c => negb (Py.is_space c)) s = true -> Py.rstrip s = s.
Proof.
  induction s as [|c s IH]; simpl; [reflexivity|].
  rewrite andb_true_iff, negb_true_iff. intros [Hc Hs].
  rewrite IH by assumption. rewrite Hc. now destruct s.
Qed.

Lemma strip_id (s : string) :
  Py.all_chars (fun c => negb (Py.is_space c)) s = true -> Py.strip s = s.
Proof.
  intros H. unfold Py.strip.
  assert (Hl : Py.lstrip s = s).
  { destruct s as [|c s]; [reflexivity|]. simpl in *.
    apply andb_true_iff in H as [Hc _]. apply negb_true_iff in Hc.
    now rewrite Hc. }
  rewrite Hl. now apply rstrip_id.
Qed.

Lemma ungroup_id (s : string) (after_digit : bool) :
  Py.all_chars (fun c => negb (Ascii.eqb c Py.UNDERSCORE)) s = true ->
  after_digit = true \/ s <> "" ->
  Py.ungroup after_digit s = Some s.
Proof.
  revert after_digit. induction s as [|c s IH]; simpl; intros b Hs Hb.
  - destruct Hb as [->|]; [reflexivity|congruence].
  - apply andb_true_iff in Hs as [Hc Hs]. apply negb_true_iff in Hc.
    rewrite Hc, IH by auto. reflexivity.
Qed.

Lemma digits_uint_text (d : Decimal.uint) :
  d <> Decimal.Nil ->
  Py.digits (NilEmpty.string_of_uint d) = Some (Z.of_uint d).
Proof.
  intros Hd. unfold Py.digits. rewrite ungroup_id.
  - now rewrite NilEmpty.usu.
  - apply all_chars_impl with (p := is_digit); [|apply uint_text_digits].
    intros c Hc. rewrite negb_true_iff.
    apply (numeral_char_facts c). unfold numeral_char. now rewrite Hc.
  - right. now apply uint_text_nonempty.
Qed.

Lemma of_uint_to_uint (q : positive) : Z.of_uint (Pos.to_uint q) = Z.pos q.
Proof. unfold Z.of_uint. now rewrite DecimalPos.Unsigned.of_to. Qed.

(** Reading back what [str] wrote. *)
Lemma int_str_int (n : Z) : Py.int (Py.str_int n) = Some n.
Proof.
  unfold Py.int. rewrite strip_id.
  2:{ apply all_chars_impl with (p := numeral_char); [|apply str_int_chars].
      intros c Hc. rewrite negb_true_iff. now apply numeral_char_facts. }
  destruct n as [|q|q]; [reflexivity| |].
  - unfold Py.str_int. simpl.
    pose proof (uint_text_digits (Pos.to_uint q)) as Hd.
    pose proof (digits_uint_text _ (DecimalPos.Unsigned.to_uint_nonnil q)) as Hv.
    destruct (NilEmpty.string_of_uint (Pos.to_uint q)) as [|c r] eqn:E.
    + now apply uint_text_nonempty in E; [|apply DecimalPos.Unsigned.to_uint_nonnil].
    + simpl in Hd. apply andb_true_iff in Hd as [Hc _].
      assert (Hm : Ascii.eqb c "-" = false /\ Ascii.eqb c "+" = false).
      { clear - Hc. destruct c as [[|] [|] [|] [|] [|] [|] [|] [|]];
          vm_compute in Hc; try discriminate Hc; split; reflexivity. }
      destruct Hm as [-> ->]. rewrite Hv. now rewrite of_uint_to_uint.
  - unfold Py.str_int. simpl.
    rewrite digits_uint_text by apply DecimalPos.Unsigned.to_uint_nonnil.
    simpl. now rewrite of_uint_to_uint.
Qed.

End DecimalText.

(* ===================================================================== *)
(** * The frame written for a command *)
(* ===================================================================== *)

Section Frames.

Lemma bytes_ascii_numeral (s : string) :
  Py.all_chars (fun c => numeral_char c || Ascii.eqb c " ") s = true ->
  Py.bytes_ascii s = Some s.
Proof.
  intros H. unfold Py.bytes_ascii.
  rewrite (all_chars_impl _ _ s) with (2 := H); [reflexivity|].
  intros c Hc. apply orb_true_iff in Hc as [Hc|Hc].
  - now apply numeral_char_facts.
  - apply Ascii.eqb_eq in Hc. now subst c.
Qed.

(** For an integer the parameter text is [str(val)] without its first and
    its last character. *)
Lemma to_write_scalar (data : string) (n : Z) :
  Usc3.to_write data (Some (Int n))
  = Some (data ++ (" " ++ Py.slice 1 (-1) (Py.str_int n)) ++ Usc3._trm).
Proof.
  unfold Usc3.to_write, str.
  assert (Hc : Py.all_chars numeral_char (Py.slice 1 (-1) (Py.str_int n)) = true)
    by apply all_chars_slice, str_int_chars.
  rewrite remove_absent.
  - rewrite bytes_ascii_numeral; [reflexivity|].
    apply all_chars_impl with (2 := Hc). intros c ->. reflexivity.
  - unfold Py.has_char. rewrite negb_false_iff.
    apply all_chars_impl with (2 := Hc). intros c Hx.
    rewrite negb_true_iff. now apply numeral_char_facts.
Qed.

Lemma join_chars (p : ascii -> bool) (sep : string) (l : list string) :
  Py.all_chars p sep = true ->
  Forall (fun s => Py.all_chars p s = true) l ->
  Py.all_chars p (Py.join sep l) = true.
Proof.
  intros Hsep. unfold Py.join.
  induction 1 as [|s l Hs Hl IH]; [reflexivity|].
  destruct l as [|t l]; [exact Hs|].
  change (String.concat sep (s :: t :: l))
    with (s ++ sep ++ String.concat sep (t :: l)).
  now rewrite !all_chars_app, Hs, Hsep, IH.
Qed.

(** For a list the parameter text is its elements in base 10, one space
    between neighbours. *)
Lemma to_write_sequence (data : string) (v : list Z) :
  Usc3.to_write data (Some (Seq v))
  = Some (data ++ (" " ++ Py.join " " (map Py.str_int v)) ++ Usc3._trm).
Proof.
  unfold Usc3.to_write, str, Py.str_list.
  change ("[" ++ Py.join ", " (map Py.str_int v) ++ "]")
    with (String "[" (Py.join ", " (map Py.str_int v) ++ String "]" "")).
  rewrite slice_unwrap, remove_commas_join.
  - rewrite bytes_ascii_numeral; [reflexivity|].
    apply join_chars; [reflexivity|].
    apply Forall_forall. intros s Hs. apply in_map_iff in Hs as (n & <- & _).
    apply all_chars_impl with (2 := str_int_chars n). intros c ->. reflexivity.
  - apply Forall_forall. intros s Hs. apply in_map_iff in Hs as (n & <- & _).
    now apply str_int_no.
Qed.

(** A device line is a [bytes] object, and no key of the table is one. *)
Lemma bytes_not_in_comm_codes (response : string) :
  dict_in (Bytes response) Usc3.comm_codes = false.
Proof. reflexivity. Qed.

(** One exchange on an open port: the frame goes out, the next line comes
    back, and the line itself is the result. *)
Lemma execute_command_exchange (self : Usc3.self_) (data : string)
  (val : option param) (w : world) (s : Serial) (frame line rest : string) :
  Usc3.serial self = Some s ->
  Usc3.to_write data val = Some frame ->
  cut_after Usc3._end (rx w) = Some (line, rest) ->
  Usc3._execute_command self data val w
  = Return (Bytes line)
      {| visible := visible w; opened := opened w; stdout := stdout w;
         tx := tx w ++ frame; rx := rest |}.
Proof.
  intros Hs Hf Hl.
  unfold Usc3._execute_command, Usc3._send, Usc3._recv, bind.
  rewrite Hf, Hs. simpl. unfold Serial_read_until. simpl. rewrite Hl.
  reflexivity.
Qed.

End Frames.


(* ===================================================================== *)
(** * Scalar parameters *)
(* ===================================================================== *)

(** X23. Whatever the integer, the frame is not the opcode, a space, the
    decimal text and the terminator: at least one character of the text is
    lost. *)
Lemma scalar_frame_never_complete (data : string) (n : Z) :
  Usc3.to_write data (Some (Int n))
  <> Some (data ++ (" " ++ Py.str_int n) ++ Usc3._trm).
Proof.
  rewrite to_write_scalar. intros H. injection H as H.
  apply (f_equal String.length) in H.
  rewrite !length_append in H. simpl String.length in H.
  rewrite !length_append in H.
  pose proof (slice_shorter _ (str_int_nonempty n)). lia.
Qed.

(** C1 (the code departs from the claim). Sending opcode [POW] with the
    scalar 50 writes [POW], a space and the terminator: the parameter text
    is [str(50)[1:-1]], which is empty, so the frame holds no token after
    the opcode and is not [POW 50] followed by the terminator. *)
Theorem scalar_frame_loses_parameter :
  Usc3.to_write "POW" (Some (Int 50)) = Some (CRLF_ "POW ")
  /\ written (Usc3._execute_command a_client "POW" (Some (Int 50))
                (a_line (LF_ "0"))) = CRLF_ "POW "
  /\ CRLF_ "POW " <> CRLF_ "POW 50".
Proof. repeat split; try reflexivity. discriminate. Qed.

(* ===================================================================== *)
(** * Responses *)
(* ===================================================================== *)

(** C2 (the code departs from the claim). The device answers [0] and a line
    feed to [POW 50]; the table holds ["Success"] under the [str] key ["0"],
    but the line read is a [bytes] object that still ends in the line feed,
    no [bytes] object is a key of the table, and the call returns the line
    as it came. *)
Theorem status_reply_not_decoded :
  dict_get Usc3.comm_codes (Str "0") = Some (Str "Success")
  /\ (forall response, dict_in (Bytes response) Usc3.comm_codes = false)
  /\ Usc3._execute_command a_client "POW" (Some (Int 50)) (a_line (LF_ "0"))
     = Return (Bytes (LF_ "0"))
         {| visible := []; opened := [a_port]; stdout := [];
            tx := CRLF_ "POW "; rx := "" |}.
Proof. repeat split; reflexivity. Qed.

(** C9. [run] and [stop] behave alike in every world: both write [M], a
    space and the terminator, because [str(1)[1:-1]] and [str(0)[1:-1]] are
    both empty. *)
Theorem run_stop_same_frame (self : Usc3.self_) (w : world) :
  Usc3.to_write "M" (Some (Int 1)) = Some (CRLF_ "M ")
  /\ Usc3.to_write "M" (Some (Int 0)) = Some (CRLF_ "M ")
  /\ Usc3.run self w = Usc3.stop self w
  /\ written (Usc3.run self w) = written (Usc3.stop self w).
Proof.
  repeat split; reflexivity.
Qed.

(** C10. [set_pulse] never looks at [pulse_width]: two calls that differ in
    it only, whatever the two values, end alike and leave the same bytes on
    the line. *)
Theorem set_pulse_ignores_pulse_width (W1 W2 : Type) (self : Usc3.self_)
  (output_list : list Z) (w1 : W1) (w2 : W2) (w : world) :
  Usc3.set_pulse self output_list w1 w = Usc3.set_pulse self output_list w2 w
  /\ written (Usc3.set_pulse self output_list w1 w)
     = written (Usc3.set_pulse self output_list w2 w).
Proof. split; reflexivity. Qed.

(* ===================================================================== *)
(** * Sequence parameters *)
(* ===================================================================== *)

Lemma all_some_map_Some {A} (l : list A) : all_some (map Some l) = Some l.
Proof. induction l as [|a l IH]; simpl; [reflexivity|now rewrite IH]. Qed.

(** The fields of a joined list of integers read back as the list. *)
Lemma int_fields_join (v : list Z) :
  v <> [] -> Usc3.int_fields (Py.join " " (map Py.str_int v)) = Some v.
Proof.
  intros Hv. unfold Usc3.int_fields. rewrite split_join.
  - rewrite map_map. erewrite map_ext by apply int_str_int.
    apply all_some_map_Some.
  - destruct v; [congruence|discriminate].
  - apply Forall_forall. intros s Hs. apply in_map_iff in Hs as (n & <- & _).
    now apply str_int_no.
Qed.

Lemma plain_frame (data payload : string) :
  plain payload = true ->
  plain (data ++ (" " ++ payload) ++ Usc3._trm) = plain data.
Proof.
  intros H. unfold plain in *.
  rewrite !all_chars_app, H. simpl. now rewrite !andb_true_r.
Qed.

(** C8, counterexample. For the empty list the frame is [HP], a space and
    the terminator; its payload is the empty text, which splits into one
    empty field, and that field is not an integer: no payload of this
    frame reads back as the empty list. *)
Lemma empty_vector_no_round_trip :
  ~ (exists payload,
        Usc3.to_write "HP" (Some (Seq []))
        = Some ("HP" ++ (" " ++ payload) ++ Usc3._trm)
        /\ Usc3.int_fields payload = Some []).
Proof.
  intros (payload & Hf & Hp).
  destruct payload as [|c payload]; [discriminate Hp|].
  vm_compute in Hf. injection Hf as Hc Hr.
  destruct payload as [|c' payload]; [discriminate Hr|].
  injection Hr as _ Hr. destruct payload; discriminate Hr.
Qed.

(** C8, amended to non-empty lists. The frame for a non-empty list [v] is
    the opcode, a space, the elements of [v] in base 10 with one space
    between neighbours, and the terminator; the frame holds a bracket or a
    comma only if the opcode does; and the payload, split at its spaces and
    read field by field as integers, is [v]. *)
Theorem sequence_frame_round_trip (data : string) (v : list Z) :
  v <> [] ->
  let payload := Py.join " " (map Py.str_int v) in
  Usc3.to_write data (Some (Seq v))
  = Some (data ++ (" " ++ payload) ++ Usc3._trm)
  /\ plain (data ++ (" " ++ payload) ++ Usc3._trm) = plain data
  /\ Usc3.int_fields payload = Some v.
Proof.
  intros Hv payload. split; [apply to_write_sequence|]. split.
  - apply plain_frame. apply join_chars; [reflexivity|].
    apply Forall_forall. intros s Hs. apply in_map_iff in Hs as (n & <- & _).
    apply all_chars_impl with (2 := str_int_chars n).
    intros c Hc. now apply numeral_char_facts.
  - now apply int_fields_join.
Qed.

Lemma sequence_frame_round_trip_witness :
  [10; -20; 30] <> []
  /\ Usc3.to_write "HP" (Some (Seq [10; -20; 30])) = Some (CRLF_ "HP 10 -20 30")
  /\ plain (CRLF_ "HP 10 -20 30") = true
  /\ Usc3.int_fields "10 -20 30" = Some [10; -20; 30].
Proof.
  split; [discriminate|].
  exact (sequence_frame_round_trip "HP" [10; -20; 30] ltac:(discriminate)).
Defined.

(* ===================================================================== *)
(** * The home-position query *)
(* ===================================================================== *)

(** [_execute_command] returns nothing but a [bytes] object. *)
Lemma execute_command_returns_bytes (self : Usc3.self_) (data : string)
  (val : option param) (w w' : world) (t : text) :
  Usc3._execute_command self data val w = Return t w' ->
  exists b, t = Bytes b.
Proof.
  unfold Usc3._execute_command, Usc3._send, Usc3._recv, bind, or_raise.
  destruct (Usc3.to_write data val) as [f|]; [|discriminate].
  destruct (Usc3.serial self); [|discriminate]. simpl.
  unfold Serial_read_until. simpl.
  destruct (cut_after Usc3._end (rx w)) as [[line rest]|]; [|discriminate].
  intros [= <- _]. now exists line.
Qed.

(** X22. So [get_home_position] never returns a list, whatever the client
    and whatever the device sends. *)
Lemma get_home_position_never_returns (self : Usc3.self_) (w w' : world)
  (l : list Z) :
  Usc3.get_home_position self w <> Return l w'.
Proof.
  unfold Usc3.get_home_position, bind.
  destruct (Usc3._execute_command self "HP" None w) as [t w1| | |] eqn:E;
    try discriminate.
  apply execute_command_returns_bytes in E as [b ->]. discriminate.
Qed.

(** C4 (the code departs from the claim). The query writes [HP] and the
    terminator and reads the line [10 20 30]; the line is a [bytes] object,
    splitting it at a [str] space raises [TypeError], and no list is
    returned, although the same characters as a [str] would read as
    [[10, 20, 30]]. *)
Theorem home_position_reply_raises :
  Usc3.get_home_position a_client (a_line (LF_ "10 20 30"))
  = Raise TypeError
      {| visible := []; opened := [a_port]; stdout := [];
         tx := CRLF_ "HP"; rx := "" |}
  /\ Usc3.int_fields (LF_ "10 20 30") = Some [10; 20; 30].
Proof. split; reflexivity. Qed.

(* ===================================================================== *)
(** * Device discovery and connection *)
(* ===================================================================== *)

Section Discovery.

Lemma getitem_last {A} (l : list A) (a : A) :
  Py.getitem (l ++ [a])%list (-1) = Some a.
Proof.
  unfold Py.getitem. rewrite length_app. simpl List.length.
  change (-1 <? 0) with true. cbv iota.
  assert (H0 : (0 <=? -1 + Z.of_nat (List.length l + 1)) = true)
    by (apply Z.leb_le; lia).
  assert (H1 : (-1 + Z.of_nat (List.length l + 1)
                <? Z.of_nat (List.length l + 1)) = true)
    by (apply Z.ltb_lt; lia).
  rewrite H0, H1. simpl andb. cbv iota.
  replace (Z.to_nat _) with (List.length l) by lia.
  rewrite nth_error_app2 by lia. now rewrite Nat.sub_diag.
Qed.

Lemma port_list_wanted (self : Usc3.self_) (ds : list Usc3.device_entry) :
  Usc3.port_list self ds = map Usc3.PORT (filter (wanted self) ds).
Proof. unfold Usc3.port_list, wanted. now destruct (Usc3.serial_number self). Qed.

Lemma wanted_sound (self : Usc3.self_) (d : Usc3.device_entry) :
  wanted self d = true ->
  match Usc3.serial_number self with
  | Some sn => Usc3.SN d = Some sn
  | None => Usc3.VID d = Some 0x2341
  end.
Proof.
  unfold wanted, Usc3.SN_is, Usc3.VID_is.
  destruct (Usc3.serial_number self) as [sn|].
  - destruct (Usc3.SN d) as [x|]; [|discriminate].
    intros H. apply String.eqb_eq in H. now subst.
  - destruct (Usc3.VID d) as [x|]; [|discriminate].
    intros H. apply Z.eqb_eq in H. now subst.
Qed.

Lemma nonempty_snoc {A} (l : list A) :
  l <> [] -> exists before a, l = (before ++ [a])%list.
Proof.
  intros H. destruct (exists_last H) as (before & a & ->). now exists before, a.
Qed.

Lemma port_seek_last (self : Usc3.self_) (w : world)
  (before : list Usc3.device_entry) (d : Usc3.device_entry) :
  filter (wanted self) (Usc3.devices (visible w)) = (before ++ [d])%list ->
  Usc3._port_seek self w = Return (Usc3.PORT d) w.
Proof.
  intros E. unfold Usc3._port_seek, bind, comports.
  rewrite port_list_wanted, E, map_app. simpl map.
  now rewrite getitem_last.
Qed.

Lemma port_seek_none (self : Usc3.self_) (w : world) :
  filter (wanted self) (Usc3.devices (visible w)) = [] ->
  Usc3._port_seek self w = Raise IndexError w.
Proof.
  intros E. unfold Usc3._port_seek, bind, comports.
  now rewrite port_list_wanted, E.
Qed.

(** X21. What [_port_seek] returns is the port of a wanted device, and the
    call changes nothing. *)
Lemma port_seek_returns_only_wanted (self : Usc3.self_) (w w' : world)
  (p : string) :
  Usc3._port_seek self w = Return p w' ->
  w' = w
  /\ exists d, In d (Usc3.devices (visible w)) /\ wanted self d = true
               /\ Usc3.PORT d = p.
Proof.
  intros H.
  destruct (filter (wanted self) (Usc3.devices (visible w))) as [|x l] eqn:E.
  - rewrite (port_seek_none self w E) in H. discriminate.
  - destruct (nonempty_snoc (x :: l)) as (before & d & Hf); [discriminate|].
    rewrite <- E in Hf. rewrite (port_seek_last self w before d Hf) in H.
    injection H as <- <-. split; [reflexivity|].
    assert (Hd : In d (filter (wanted self) (Usc3.devices (visible w)))).
    { rewrite Hf. apply in_or_app. right. now left. }
    apply filter_In in Hd as [Hin Hw]. now exists d.
Qed.

(** The entry [devices] makes of a port passes the filter exactly when the
    port is a target. *)
Lemma wanted_target (self : Usc3.self_) (p : list_ports.ListPortInfo) :
  wanted self {| Usc3.PORT := list_ports.device p;
                 Usc3.VID := list_ports.vid p;
                 Usc3.SN := list_ports.serial_number p |} = true
  <-> is_target self p.
Proof.
  unfold wanted, is_target, Usc3.SN_is, Usc3.VID_is. simpl.
  destruct (Usc3.serial_number self) as [sn|].
  - destruct (list_ports.serial_number p) as [x|].
    + rewrite String.eqb_eq. split; congruence.
    + split; discriminate.
  - destruct (list_ports.vid p) as [x|].
    + rewrite Z.eqb_eq. split; congruence.
    + split; discriminate.
Qed.

Lemma no_target_filtered (self : Usc3.self_)
  (l : list list_ports.ListPortInfo) :
  (forall q, In q l -> ~ is_target self q) ->
  filter (wanted self) (Usc3.devices l) = [].
Proof.
  induction l as [|a l IH]; intros H; [reflexivity|].
  unfold Usc3.devices in *. simpl.
  destruct (wanted self _) eqn:E.
  - apply wanted_target in E. now apply H in E; [|left].
  - apply IH. intros q Hq. apply H. now right.
Qed.

Lemma filter_last_target (self : Usc3.self_)
  (before after : list list_ports.ListPortInfo) (p : list_ports.ListPortInfo) :
  is_target self p ->
  (forall q, In q after -> ~ is_target self q) ->
  filter (wanted self) (Usc3.devices (before ++ p :: after)%list)
  = (filter (wanted self) (Usc3.devices before)
     ++ [{| Usc3.PORT := list_ports.device p; Usc3.VID := list_ports.vid p;
            Usc3.SN := list_ports.serial_number p |}])%list.
Proof.
  intros Hp Hafter.
  pose proof (no_target_filtered self after Hafter) as Ha.
  apply wanted_target in Hp.
  unfold Usc3.devices in *. rewrite map_app, filter_app. simpl.
  now rewrite Hp, Ha.
Qed.

(** When some enumerated port is a target, one of them is the last. *)
Lemma last_target_exists (self : Usc3.self_)
  (l : list list_ports.ListPortInfo) :
  (exists p, In p l /\ is_target self p) ->
  exists before p after,
    l = (before ++ p :: after)%list /\ is_target self p
    /\ forall q, In q after -> ~ is_target self q.
Proof.
  induction l as [|a l IH]; intros (p & Hin & Hp); [contradiction|].
  destruct (filter (wanted self) (Usc3.devices l)) as [|d ds] eqn:E.
  - assert (Hl : forall q, In q l -> ~ is_target self q).
    { intros q Hq Ht. apply wanted_target in Ht.
      assert (Hd : In {| Usc3.PORT := list_ports.device q;
                         Usc3.VID := list_ports.vid q;
                         Usc3.SN := list_ports.serial_number q |}
                      (filter (wanted self) (Usc3.devices l))).
      { apply filter_In. split; [|exact Ht].
        unfold Usc3.devices. apply in_map_iff. now exists q. }
      rewrite E in Hd. contradiction. }
    destruct Hin as [->|Hin]; [|now apply Hl in Hin].
    now exists [], p, l.
  - destruct IH as (before & q & after & -> & Hq & Hafter).
    + assert (Hd : In d (filter (wanted self) (Usc3.devices l)))
        by (rewrite E; now left).
      apply filter_In in Hd as [Hd Hw]. unfold Usc3.devices in Hd.
      apply in_map_iff in Hd as (q & <- & Hq).
      exists q. split; [exact Hq|now apply wanted_target].
    + now exists (a :: before), q, after.
Qed.

End Discovery.

(** C5. Let the ports be enumerated as [before], then [p], then [after],
    where [p] is a target (its serial number is the client's, compared
    character by character, or, for a client without one, its vendor id is
    0x2341) and no port of [after] is one. Then [_port_seek] returns the
    device path of [p], the last target in enumeration order, and changes
    nothing. *)
Theorem port_seek_selects_last_match (self : Usc3.self_) (w : world)
  (before after : list list_ports.ListPortInfo) (p : list_ports.ListPortInfo) :
  visible w = (before ++ p :: after)%list ->
  is_target self p ->
  (forall q, In q after -> ~ is_target self q) ->
  Usc3._port_seek self w = Return (list_ports.device p) w.
Proof.
  intros Hv Hp Hafter.
  apply (port_seek_last self w
           (filter (wanted self) (Usc3.devices before))
           {| Usc3.PORT := list_ports.device p; Usc3.VID := list_ports.vid p;
              Usc3.SN := list_ports.serial_number p |}).
  rewrite Hv. now apply filter_last_target.
Qed.

Lemma port_seek_selects_last_match_witness :
  (visible (a_host four_ports) = ([ttyS0] ++ ttyACM0 :: [ttyACM1; ttyUSB0])%list
   /\ is_target (new_client (Some "A1")) ttyACM0
   /\ (forall q, In q [ttyACM1; ttyUSB0]
                 -> ~ is_target (new_client (Some "A1")) q)
   /\ Usc3._port_seek (new_client (Some "A1")) (a_host four_ports)
      = Return "/dev/ttyACM0" (a_host four_ports))
  /\ (visible (a_host four_ports) = ([ttyS0; ttyACM0] ++ ttyACM1 :: [ttyUSB0])%list
      /\ is_target (new_client None) ttyACM1
      /\ (forall q, In q [ttyUSB0] -> ~ is_target (new_client None) q)
      /\ Usc3._port_seek (new_client None) (a_host four_ports)
         = Return "/dev/ttyACM1" (a_host four_ports)).
Proof.
  assert (H1 : forall q, In q [ttyACM1; ttyUSB0]
                         -> ~ is_target (new_client (Some "A1")) q)
    by (intros q [<-|[<-|[]]]; discriminate).
  assert (H2 : forall q, In q [ttyUSB0] -> ~ is_target (new_client None) q)
    by (intros q [<-|[]]; discriminate).
  split.
  - split; [reflexivity|]. split; [reflexivity|]. split; [exact H1|].
    exact (port_seek_selects_last_match (new_client (Some "A1"))
             (a_host four_ports) [ttyS0] [ttyACM1; ttyUSB0] ttyACM0
             eq_refl eq_refl H1).
  - split; [reflexivity|]. split; [reflexivity|]. split; [exact H2|].
    exact (port_seek_selects_last_match (new_client None)
             (a_host four_ports) [ttyS0; ttyACM0] [ttyUSB0] ttyACM1
             eq_refl eq_refl H2).
Defined.

Example port_seek_by_vendor :
  Usc3._port_seek (new_client None) (a_host four_ports)
  = Return "/dev/ttyACM1" (a_host four_ports).
Proof. reflexivity. Qed.

Example port_seek_by_serial_number :
  Usc3._port_seek (new_client (Some "A1")) (a_host four_ports)
  = Return "/dev/ttyACM0" (a_host four_ports)
  /\ Usc3._port_seek (new_client (Some "a1")) (a_host four_ports)
     = Raise IndexError (a_host four_ports).
Proof. split; reflexivity. Qed.

Example connect_opens_the_port_found :
  Usc3.__init__ None None (a_host four_ports)
  = Return {| Usc3.serial_number := None; Usc3.port := Some "/dev/ttyACM1";
              Usc3.serial := Some {| ser_port := "/dev/ttyACM1";
                                     ser_baudrate := 115200 |} |}
      {| visible := four_ports;
         opened := [{| ser_port := "/dev/ttyACM1"; ser_baudrate := 115200 |}];
         stdout := []; tx := ""; rx := "" |}.
Proof. reflexivity. Qed.

(** C3 (the code departs from the claim). When no enumerated device is
    wanted, [_port_seek] raises [IndexError] on [port_list[-1]]; [connect]
    does not reach its own test for an empty result, prints nothing and
    returns nothing: the exception leaves [connect] and the constructor.
    No port is opened. *)
Theorem connect_without_device_raises (self : Usc3.self_) (w : world) :
  filter (wanted self) (Usc3.devices (visible w)) = [] ->
  Usc3._port_seek self w = Raise IndexError w
  /\ Usc3.connect self w = Raise IndexError w
  /\ Usc3.__init__ (Usc3.serial_number self) None w = Raise IndexError w
  /\ opened (world_of (Usc3.connect self w)) = opened w
  /\ stdout (world_of (Usc3.connect self w)) = stdout w.
Proof.
  intros He.
  assert (Hs : Usc3._port_seek self w = Raise IndexError w)
    by now apply port_seek_none.
  assert (Hc : Usc3.connect self w = Raise IndexError w).
  { unfold Usc3.connect, bind. now rewrite Hs. }
  repeat split; try assumption; try (now rewrite Hc).
  unfold Usc3.__init__, bind.
  assert (Hi : Usc3.connect
                 {| Usc3.serial_number := Usc3.serial_number self;
                    Usc3.port := None; Usc3.serial := None |} w
               = Raise IndexError w).
  { unfold Usc3.connect, Usc3._port_seek, bind, comports.
    rewrite port_list_wanted.
    change (wanted {| Usc3.serial_number := Usc3.serial_number self;
                      Usc3.port := None; Usc3.serial := None |})
      with (wanted self).
    now rewrite He. }
  now rewrite Hi.
Qed.

Lemma connect_without_device_raises_witness :
  filter (wanted (new_client None)) (Usc3.devices (visible (a_host []))) = []
  /\ Usc3._port_seek (new_client None) (a_host [])
     = Raise IndexError (a_host [])
  /\ Usc3.connect (new_client None) (a_host []) = Raise IndexError (a_host [])
  /\ Usc3.__init__ None None (a_host []) = Raise IndexError (a_host [])
  /\ opened (world_of (Usc3.connect (new_client None) (a_host []))) = []
  /\ stdout (world_of (Usc3.connect (new_client None) (a_host []))) = [].
Proof.
  split; [reflexivity|].
  exact (connect_without_device_raises (new_client None) (a_host [])
           eq_refl).
Defined.

(* ===================================================================== *)
(** * The output-pin mask *)
(* ===================================================================== *)

Section OutputMask.

Lemma fold_left_add (l : list Z) (a : Z) :
  fold_left Z.add l a = a + fold_right Z.add 0 l.
Proof.
  revert a. induction l as [|x l IH]; intros a; simpl; [lia|].
  rewrite IH. lia.
Qed.

(** On pins from 1 upwards every power is an integer, and the left-to-right
    sum of the code is the sum of the powers. *)
Lemma pins_mask_of_pins (S : list Z) :
  (forall p, In p S -> 1 <= p) -> Usc3.pins S = Some (mask_of_pins S).
Proof.
  intros H. unfold Usc3.pins.
  assert (E : all_some (map (fun pin => Py.pow2 (pin - 1)) S)
              = Some (map (fun pin => 2 ^ (pin - 1)) S)).
  { induction S as [|p S IH]; [reflexivity|]. simpl.
    unfold Py.pow2 at 1.
    replace (0 <=? p - 1) with true
      by (symmetry; apply Z.leb_le; specialize (H p (or_introl eq_refl)); lia).
    rewrite IH; [reflexivity|]. intros q Hq. apply H. now right. }
  rewrite E. simpl. f_equal. unfold Py.sum. rewrite fold_left_add. simpl.
  clear. induction S as [|p S IH]; simpl; [reflexivity|]. now rewrite IH.
Qed.

(** Without duplicates the sum sets exactly the bits of the pins. *)
Lemma mask_of_pins_bits (S : list Z) :
  NoDup S -> (forall p, In p S -> 1 <= p) ->
  forall k, 0 <= k ->
    Z.testbit (mask_of_pins S) k = existsb (fun p => p - 1 =? k) S.
Proof.
  induction 1 as [|p S Hp Hnd IH]; intros Hr k Hk; simpl.
  - apply Z.bits_0.
  - assert (H1 : 1 <= p) by (apply Hr; now left).
    assert (HS : forall q, In q S -> 1 <= q) by (intros q Hq; apply Hr; now right).
    assert (Hoff : Z.testbit (mask_of_pins S) (p - 1) = false).
    { rewrite IH by (auto; lia).
      apply not_true_is_false. intros Hex.
      apply existsb_exists in Hex as (q & Hq & Hpq).
      apply Z.eqb_eq in Hpq. assert (q = p) by lia. now subst q. }
    rewrite Z.add_nocarry_lxor.
    + rewrite Z.lxor_spec, Z.pow2_bits_eqb by lia.
      destruct (Z.eqb_spec (p - 1) k) as [E|E]; simpl.
      * rewrite <- E, Hoff. reflexivity.
      * now apply IH.
    + apply Z.bits_inj'. intros j Hj.
      rewrite Z.land_spec, Z.pow2_bits_eqb, Z.bits_0 by lia.
      destruct (Z.eqb_spec (p - 1) j) as [E|E]; simpl; [|reflexivity].
      rewrite <- E. exact Hoff.
Qed.

Lemma mask_of_pins_nonneg (S : list Z) : 0 <= mask_of_pins S.
Proof.
  induction S as [|p S IH]; simpl; [lia|].
  pose proof (Z.pow_nonneg 2 (p - 1)). lia.
Qed.

Lemma low_bits_bound (a n : Z) :
  0 <= a -> 0 <= n -> (forall k, n <= k -> Z.testbit a k = false) -> a < 2 ^ n.
Proof.
  intros Ha Hn Hbits.
  destruct (Z.eq_dec a 0) as [->|Hz]; [now apply Z.pow_pos_nonneg|].
  apply Z.log2_lt_pow2; [lia|].
  destruct (Z_lt_le_dec (Z.log2 a) n) as [Hlt|Hle]; [exact Hlt|].
  specialize (Hbits _ Hle). rewrite Z.bit_log2 in Hbits by lia. discriminate.
Qed.

End OutputMask.

(** C6. For a duplicate-free list [S] of pins between 1 and 22, the mask
    [set_pulse] computes and hands to the [LPJ] command is the sum over
    the pins [p] of [S] of [2^(p-1)]: bit [p-1] of the mask is set exactly
    for the pins of [S], and the mask fits in 22 bits. For the pins 1 and 3
    it is 5. *)
Theorem output_mask_is_sum_of_pin_bits (W : Type) (self : Usc3.self_)
  (S : list Z) (pulse_width : W) :
  NoDup S ->
  (forall p, In p S -> 1 <= p <= 22) ->
  Usc3.set_pulse self S pulse_width
  = Usc3._execute_command self "LPJ" (Some (Int (mask_of_pins S)))
  /\ Usc3.pins S = Some (mask_of_pins S)
  /\ (forall p, 1 <= p ->
        (Z.testbit (mask_of_pins S) (p - 1) = true <-> In p S))
  /\ 0 <= mask_of_pins S < 2 ^ 22
  /\ Usc3.pins [1; 3] = Some 5.
Proof.
  intros Hnd Hr.
  assert (H1 : forall p, In p S -> 1 <= p) by (intros p Hp; apply Hr in Hp; lia).
  assert (Hbit : forall p, 1 <= p ->
            (Z.testbit (mask_of_pins S) (p - 1) = true <-> In p S)).
  { intros p Hp. rewrite mask_of_pins_bits by (auto; lia).
    rewrite existsb_exists. split.
    - intros (q & Hq & E). apply Z.eqb_eq in E.
      replace p with q by lia. exact Hq.
    - intros Hin. exists p. split; [exact Hin|apply Z.eqb_refl]. }
  split.
  { unfold Usc3.set_pulse. now rewrite (pins_mask_of_pins S H1). }
  split; [now apply pins_mask_of_pins|]. split; [exact Hbit|].
  split; [|reflexivity].
  split; [apply mask_of_pins_nonneg|].
  apply low_bits_bound; [apply mask_of_pins_nonneg|lia|].
  intros k Hk. apply not_true_is_false. intros Hset.
  replace k with ((k + 1) - 1) in Hset by lia.
  apply Hbit in Hset; [|lia]. apply Hr in Hset. lia.
Qed.

Lemma output_mask_is_sum_of_pin_bits_witness :
  NoDup [3; 8]
  /\ (forall p, In p [3; 8] -> 1 <= p <= 22)
  /\ Usc3.set_pulse a_client [3; 8] 250
     = Usc3._execute_command a_client "LPJ" (Some (Int 132))
  /\ Usc3.pins [3; 8] = Some 132
  /\ (forall p, 1 <= p ->
        (Z.testbit (mask_of_pins [3; 8]) (p - 1) = true <-> In p [3; 8]))
  /\ 0 <= mask_of_pins [3; 8] < 2 ^ 22
  /\ Usc3.pins [1; 3] = Some 5.
Proof.
  assert (Hnd : NoDup [3; 8])
    by (repeat constructor; simpl; intuition discriminate).
  assert (Hr : forall p, In p [3; 8] -> 1 <= p <= 22)
    by (simpl; intros p [<-|[<-|[]]]; lia).
  split; [exact Hnd|]. split; [exact Hr|].
  exact (output_mask_is_sum_of_pin_bits Z a_client [3; 8] 250 Hnd Hr).
Defined.

(** With pins 3 and 8 the mask is 132, and of its digits the middle one is
    what the line carries. *)
Example set_pulse_on_the_line :
  Usc3.set_pulse a_client [3; 8] 250 (a_line (LF_ "0"))
  = Return (Bytes (LF_ "0")) (on_line (a_line "") (CRLF_ "LPJ 3") "").
Proof. reflexivity. Qed.

(** Pins given twice count twice, and a pin below 1 yields a float. *)
Example output_mask_duplicates :
  Usc3.pins [1; 1] = Some 2 /\ Usc3.pins [3; 0] = None.
Proof. split; reflexivity. Qed.

(* ===================================================================== *)
(** * The laser-disable flag word *)
(* ===================================================================== *)


(** The word is a sum and not a bit-wise or: from pin 16 on the two part. *)
Example disable_flag_word_not_or :
  Usc3.flags_word 16 0x10 = 32 /\ Z.lor 16 0x10 = 16.
Proof. split; reflexivity. Qed.

(* ===================================================================== *)
(** * One exchange on the line *)
(* ===================================================================== *)

Section Exchange.

Lemma has_char_cons (c x : ascii) (s : string) :
  Py.has_char c (String x s) = Ascii.eqb x c || Py.has_char c s.
Proof.
  unfold Py.has_char. simpl. now rewrite negb_andb, negb_involutive.
Qed.

Lemma has_char_app (c : ascii) (a b : string) :
  Py.has_char c (a ++ b) = Py.has_char c a || Py.has_char c b.
Proof.
  unfold Py.has_char. now rewrite all_chars_app, negb_andb.
Qed.

Lemma prefix_end (x : ascii) (s : string) :
  String.prefix Usc3._end (String x s) = Ascii.eqb x Py.LF.
Proof.
  change (String.prefix Usc3._end (String x s))
    with (if ascii_dec Py.LF x then String.prefix "" s else false).
  destruct (ascii_dec Py.LF x) as [<-|Hn].
  - now destruct s.
  - symmetry. apply Ascii.eqb_neq. congruence.
Qed.

Lemma cut_after_cons (x : ascii) (s : string) :
  cut_after Usc3._end (String x s)
  = if Ascii.eqb x Py.LF then Some (Usc3._end, s)
    else match cut_after Usc3._end s with
         | Some (line, rest) => Some (String x line, rest)
         | None => None
         end.
Proof.
  change (cut_after Usc3._end (String x s))
    with (if negb (String.eqb Usc3._end "")
             && String.prefix Usc3._end (String x s)
          then Some (Usc3._end, Py.drop (String.length Usc3._end) (String x s))
          else match cut_after Usc3._end s with
               | Some (line, rest) => Some (String x line, rest)
               | None => None
               end).
  rewrite prefix_end. reflexivity.
Qed.

(** A line is cut after its line feed. *)
Lemma cut_after_line (body rest : string) :
  Py.has_char Py.LF body = false ->
  cut_after Usc3._end (body ++ String Py.LF rest)
  = Some (body ++ String Py.LF "", rest).
Proof.
  induction body as [|x body IH]; intros H.
  - simpl append. now rewrite cut_after_cons, Ascii.eqb_refl.
  - rewrite has_char_cons in H. apply orb_false_iff in H as [Hx Hb].
    simpl append. rewrite cut_after_cons, Hx, IH by assumption. reflexivity.
Qed.

Lemma cut_after_none (s : string) :
  Py.has_char Py.LF s = false -> cut_after Usc3._end s = None.
Proof.
  induction s as [|x s IH]; intros H; [reflexivity|].
  rewrite has_char_cons in H. apply orb_false_iff in H as [Hx Hs].
  now rewrite cut_after_cons, Hx, IH.
Qed.

(** What is cut is the front of the pending bytes, ends in the line feed
    and holds no other. *)
Lemma cut_after_sound (s line rest : string) :
  cut_after Usc3._end s = Some (line, rest) ->
  s = line ++ rest
  /\ exists body, line = body ++ String Py.LF ""
                  /\ Py.has_char Py.LF body = false.
Proof.
  revert line. induction s as [|x s IH]; intros line H; [discriminate|].
  rewrite cut_after_cons in H.
  destruct (Ascii.eqb_spec x Py.LF) as [->|Hx].
  - injection H as <- <-. split; [reflexivity|]. now exists "".
  - destruct (cut_after Usc3._end s) as [[l r]|]; [|discriminate].
    injection H as <- <-. destruct (IH l eq_refl) as (E & body & El & Hb).
    split; [simpl; congruence|].
    exists (String x body). split; [simpl; congruence|].
    rewrite has_char_cons, Hb. apply Ascii.eqb_neq in Hx. now rewrite Hx.
Qed.

Lemma to_write_shape (data : string) (val : option param) :
  Usc3.to_write data val = Some (data ++ param_text val ++ Usc3._trm).
Proof.
  destruct val as [[n|v]|].
  - apply to_write_scalar.
  - apply to_write_sequence.
  - reflexivity.
Qed.

(** On an open port a command writes its frame and then reads. *)
Lemma execute_command_open (self : Usc3.self_) (data : string)
  (val : option param) (w : world) (s : Serial) :
  Usc3.serial self = Some s ->
  Usc3._execute_command self data val w
  = let sent := tx w ++ data ++ param_text val ++ Usc3._trm in
    match cut_after Usc3._end (rx w) with
    | Some (line, rest) => Return (Bytes line) (on_line w sent rest)
    | None => Blocked (on_line w sent (rx w))
    end.
Proof.
  intros Hs.
  unfold Usc3._execute_command, Usc3._send, Usc3._recv, bind.
  rewrite to_write_shape, Hs. simpl. unfold Serial_read_until. simpl.
  destruct (cut_after Usc3._end (rx w)) as [[line rest]|]; reflexivity.
Qed.

Lemma execute_command_closed (self : Usc3.self_) (data : string)
  (val : option param) (w : world) :
  Usc3.serial self = None ->
  Usc3._execute_command self data val w = Raise AttributeError w.
Proof.
  intros Hs.
  unfold Usc3._execute_command, Usc3._send, bind.
  now rewrite to_write_shape, Hs.
Qed.

End Exchange.

(** X1. On an open port, when the device has a line pending, a command
    writes its frame once after what was written before, takes exactly
    that line off the pending bytes and returns it, line feed included, as
    a [bytes] object. *)
Theorem command_exchanges_one_line (self : Usc3.self_) (data : string)
  (val : option param) (w : world) (s : Serial) (body rest : string) :
  Usc3.serial self = Some s ->
  Py.has_char Py.LF body = false ->
  rx w = body ++ String Py.LF rest ->
  Usc3._execute_command self data val w
  = Return (Bytes (body ++ String Py.LF ""))
      (on_line w (tx w ++ data ++ param_text val ++ Usc3._trm) rest).
Proof.
  intros Hs Hb Hrx. rewrite (execute_command_open self data val w s Hs).
  cbv zeta. now rewrite Hrx, cut_after_line.
Qed.

Lemma command_exchanges_one_line_witness :
  Usc3.serial a_client = Some a_port
  /\ Py.has_char Py.LF "21" = false
  /\ rx (a_line (LF_ "21" ++ LF_ "0")) = "21" ++ String Py.LF (LF_ "0")
  /\ Usc3._execute_command a_client "HP" (Some (Seq [1; -2]))
       (a_line (LF_ "21" ++ LF_ "0"))
     = Return (Bytes (LF_ "21"))
         (on_line (a_line (LF_ "21" ++ LF_ "0")) (CRLF_ "HP 1 -2") (LF_ "0")).
Proof.
  split; [reflexivity|]. split; [reflexivity|]. split; [reflexivity|].
  exact (command_exchanges_one_line a_client "HP" (Some (Seq [1; -2]))
           (a_line (LF_ "21" ++ LF_ "0")) a_port "21" (LF_ "0")
           eq_refl eq_refl eq_refl).
Defined.

(** X2. Whenever a command returns, what it returns is a [bytes] object
    made of the pending bytes up to and including the first line feed; the
    bytes after it stay pending, and the frame has been written. *)
Theorem command_returns_first_line (self : Usc3.self_) (data : string)
  (val : option param) (w w' : world) (t : text) :
  Usc3._execute_command self data val w = Return t w' ->
  exists body,
    t = Bytes (body ++ String Py.LF "")
    /\ Py.has_char Py.LF body = false
    /\ rx w = body ++ String Py.LF (rx w')
    /\ tx w' = tx w ++ data ++ param_text val ++ Usc3._trm.
Proof.
  intros H. destruct (Usc3.serial self) as [s|] eqn:Hs.
  - rewrite (execute_command_open self data val w s Hs) in H. cbv zeta in H.
    destruct (cut_after Usc3._end (rx w)) as [[line rest]|] eqn:Hc;
      [|discriminate].
    injection H as <- <-.
    apply cut_after_sound in Hc as (E & body & -> & Hb).
    exists body. repeat split; try assumption.
    rewrite E, append_assoc. reflexivity.
  - rewrite (execute_command_closed self data val w Hs) in H. discriminate.
Qed.

Lemma command_returns_first_line_witness :
  Usc3._execute_command a_client "GUT" None (a_line (LF_ "21" ++ LF_ "0"))
  = Return (Bytes (LF_ "21")) (on_line (a_line "") (CRLF_ "GUT") (LF_ "0"))
  /\ exists body,
      Bytes (LF_ "21") = Bytes (body ++ String Py.LF "")
      /\ Py.has_char Py.LF body = false
      /\ rx (a_line (LF_ "21" ++ LF_ "0"))
         = body ++ String Py.LF (rx (on_line (a_line "") (CRLF_ "GUT") (LF_ "0")))
      /\ tx (on_line (a_line "") (CRLF_ "GUT") (LF_ "0"))
         = tx (a_line (LF_ "21" ++ LF_ "0")) ++ "GUT" ++ param_text None
           ++ Usc3._trm.
Proof.
  split; [reflexivity|].
  exact (command_returns_first_line a_client "GUT" None
           (a_line (LF_ "21" ++ LF_ "0"))
           (on_line (a_line "") (CRLF_ "GUT") (LF_ "0"))
           (Bytes (LF_ "21")) eq_refl).
Defined.

(** X3. Two commands in a row write their two frames in that order and
    return the first and the second pending line. *)
Theorem two_commands_in_order (self : Usc3.self_) (data1 data2 : string)
  (val1 val2 : option param) (w : world) (s : Serial)
  (body1 body2 rest : string) :
  Usc3.serial self = Some s ->
  Py.has_char Py.LF body1 = false ->
  Py.has_char Py.LF body2 = false ->
  rx w = body1 ++ String Py.LF (body2 ++ String Py.LF rest) ->
  two_commands self data1 val1 data2 val2 w
  = Return (Bytes (body1 ++ String Py.LF ""), Bytes (body2 ++ String Py.LF ""))
      (on_line w
         ((tx w ++ data1 ++ param_text val1 ++ Usc3._trm)
          ++ data2 ++ param_text val2 ++ Usc3._trm)
         rest).
Proof.
  intros Hs H1 H2 Hrx. unfold two_commands, bind.
  rewrite (execute_command_open self data1 val1 w s Hs). cbv zeta.
  rewrite Hrx, cut_after_line by assumption.
  rewrite (execute_command_open self data2 val2 _ s Hs). cbv zeta.
  simpl rx. rewrite cut_after_line by assumption. reflexivity.
Qed.

Lemma two_commands_in_order_witness :
  Usc3.serial a_client = Some a_port
  /\ Py.has_char Py.LF "7" = false
  /\ Py.has_char Py.LF "1 2 3" = false
  /\ rx (a_line (LF_ "7" ++ LF_ "1 2 3"))
     = "7" ++ String Py.LF ("1 2 3" ++ String Py.LF "")
  /\ two_commands a_client "LC" None "HP" (Some (Seq [4; 5; 6]))
       (a_line (LF_ "7" ++ LF_ "1 2 3"))
     = Return (Bytes (LF_ "7"), Bytes (LF_ "1 2 3"))
         (on_line (a_line "") (CRLF_ "LC" ++ CRLF_ "HP 4 5 6") "").
Proof.
  split; [reflexivity|]. split; [reflexivity|]. split; [reflexivity|]. split; [reflexivity|].
  exact (two_commands_in_order a_client "LC" "HP" None (Some (Seq [4; 5; 6]))
           (a_line (LF_ "7" ++ LF_ "1 2 3")) a_port "7" "1 2 3" ""
           eq_refl eq_refl eq_refl eq_refl).
Defined.

(** X4. When no line feed is pending, a command on an open port writes its
    frame and then waits for ever: [read_until] has no timeout. *)
Theorem command_blocks_without_line_feed (self : Usc3.self_) (data : string)
  (val : option param) (w : world) (s : Serial) :
  Usc3.serial self = Some s ->
  Py.has_char Py.LF (rx w) = false ->
  Usc3._execute_command self data val w
  = Blocked (on_line w (tx w ++ data ++ param_text val ++ Usc3._trm) (rx w)).
Proof.
  intros Hs Hrx. rewrite (execute_command_open self data val w s Hs).
  cbv zeta. now rewrite cut_after_none.
Qed.

Lemma command_blocks_without_line_feed_witness :
  Usc3.serial a_client = Some a_port
  /\ Py.has_char Py.LF (rx (a_line "10 20")) = false
  /\ Usc3._execute_command a_client "SVG" None (a_line "10 20")
     = Blocked (on_line (a_line "10 20") (CRLF_ "SVG") "10 20").
Proof.
  split; [reflexivity|]. split; [reflexivity|].
  exact (command_blocks_without_line_feed a_client "SVG" None (a_line "10 20")
           a_port eq_refl eq_refl).
Defined.

(** X5. On a client whose [serial] is [None] every command raises
    [AttributeError] before a byte is written or read. *)
Theorem command_without_port_raises (self : Usc3.self_) (data : string)
  (val : option param) (w : world) :
  Usc3.serial self = None ->
  Usc3._execute_command self data val w = Raise AttributeError w
  /\ Usc3.get_home_position self w = Raise AttributeError w.
Proof.
  intros Hs. split; [now apply execute_command_closed|].
  unfold Usc3.get_home_position, bind.
  now rewrite execute_command_closed.
Qed.

Lemma command_without_port_raises_witness :
  Usc3.serial (new_client None) = None
  /\ Usc3._execute_command (new_client None) "M" (Some (Int 1)) (a_line (LF_ "0"))
     = Raise AttributeError (a_line (LF_ "0"))
  /\ Usc3.get_home_position (new_client None) (a_line (LF_ "0"))
     = Raise AttributeError (a_line (LF_ "0")).
Proof.
  split; [reflexivity|].
  exact (command_without_port_raises (new_client None) "M" (Some (Int 1))
           (a_line (LF_ "0")) eq_refl).
Defined.

(** X6. However a command ends, it opens no port, prints nothing and
    leaves the list of visible ports alone; the bytes written so far are
    kept and at most the frame is added after them; what is still pending
    is an end piece of what was pending. *)
Theorem command_touches_only_the_line (self : Usc3.self_) (data : string)
  (val : option param) (w : world) :
  visible (world_of (Usc3._execute_command self data val w)) = visible w
  /\ opened (world_of (Usc3._execute_command self data val w)) = opened w
  /\ stdout (world_of (Usc3._execute_command self data val w)) = stdout w
  /\ (written (Usc3._execute_command self data val w) = tx w
      \/ written (Usc3._execute_command self data val w)
         = tx w ++ data ++ param_text val ++ Usc3._trm)
  /\ exists got,
       rx w = got ++ rx (world_of (Usc3._execute_command self data val w)).
Proof.
  destruct (Usc3.serial self) as [s|] eqn:Hs.
  - rewrite (execute_command_open self data val w s Hs). cbv zeta.
    destruct (cut_after Usc3._end (rx w)) as [[line rest]|] eqn:Hc.
    + apply cut_after_sound in Hc as (E & _).
      repeat split; try (right; reflexivity). now exists line.
    + repeat split; try (right; reflexivity). now exists "".
  - rewrite (execute_command_closed self data val w Hs).
    repeat split; try (left; reflexivity). now exists "".
Qed.

(* ===================================================================== *)
(** * What is left of a scalar parameter *)
(* ===================================================================== *)

Section ScalarText.

Lemma slice_inner (c : ascii) (s : string) :
  Py.slice 1 (-1) (String c s) = Py.take (String.length s - 1) s.
Proof.
  unfold Py.slice, Py.len, Py.clip. simpl String.length.
  change (1 <? 0) with false. change (-1 <? 0) with true. cbv iota.
  rewrite Z.min_l by lia. rewrite Z.max_r by lia.
  change (Z.to_nat 1) with 1%nat. simpl Py.drop.
  f_equal. lia.
Qed.

Lemma take_length (n : nat) (s : string) :
  String.length (Py.take n s) = Nat.min n (String.length s).
Proof.
  revert s. induction n as [|n IH]; intros [|c s]; simpl; try reflexivity.
  now rewrite IH.
Qed.

Lemma take_zero_length (n : nat) (s : string) :
  String.length (Py.take n s) = 0%nat -> Py.take n s = "".
Proof. now destruct (Py.take n s). Qed.

Lemma scalar_text_length (n : Z) :
  String.length (Py.slice 1 (-1) (Py.str_int n))
  = (String.length (Py.str_int n) - 2)%nat.
Proof.
  destruct (Py.str_int n) as [|c s] eqn:E;
    [now apply str_int_nonempty in E|].
  rewrite slice_inner, take_length. simpl String.length. lia.
Qed.

Lemma scalar_text_digits (n : Z) :
  Py.all_chars is_digit (Py.slice 1 (-1) (Py.str_int n)) = true.
Proof.
  unfold Py.str_int. destruct n as [|q|q]; simpl NilEmpty.string_of_int.
  - reflexivity.
  - apply all_chars_slice, uint_text_digits.
  - rewrite slice_inner. apply all_chars_take, uint_text_digits.
Qed.

(** From -9 to 99 the text has at most two characters. *)
Lemma small_text (n : Z) :
  -9 <= n <= 99 -> (String.length (Py.str_int n) <= 2)%nat.
Proof.
  intros Hn.
  assert (H : forallb (fun k => (String.length (Py.str_int (Z.of_nat k - 9))
                                 <=? 2)%nat) (seq 0 109) = true)
    by (vm_compute; reflexivity).
  rewrite forallb_forall in H.
  specialize (H (Z.to_nat (n + 9))).
  replace (Z.of_nat (Z.to_nat (n + 9)) - 9) with n in H by lia.
  apply Nat.leb_le, H, in_seq. lia.
Qed.

Lemma small_scalar_text (n : Z) :
  -9 <= n <= 99 -> param_text (Some (Int n)) = " ".
Proof.
  intros Hn. unfold param_text.
  pose proof (scalar_text_length n) as Hl. pose proof (small_text n Hn) as Hs.
  destruct (Py.slice 1 (-1) (Py.str_int n)); [reflexivity|].
  simpl in Hl. lia.
Qed.

Lemma small_scalar_command (self : Usc3.self_) (data : string) (n : Z)
  (w : world) :
  -9 <= n <= 99 ->
  Usc3._execute_command self data (Some (Int n)) w
  = Usc3._execute_command self data (Some (Int 0)) w.
Proof.
  intros Hn. destruct (Usc3.serial self) as [s|] eqn:Hs.
  - rewrite !(execute_command_open self data _ w s Hs).
    now rewrite small_scalar_text.
  - now rewrite !execute_command_closed.
Qed.

End ScalarText.

(** X7. Of the decimal text of a scalar parameter two characters never
    reach the line, and what does is made of digits only: the sign of a
    negative value is among what is lost. *)
Theorem scalar_text_loses_two_characters (data : string) (n : Z) :
  Usc3.to_write data (Some (Int n))
  = Some (data ++ param_text (Some (Int n)) ++ Usc3._trm)
  /\ String.length (param_text (Some (Int n)))
     = (1 + (String.length (Py.str_int n) - 2))%nat
  /\ Py.all_chars (fun c => is_digit c || Ascii.eqb c " ")
       (param_text (Some (Int n))) = true
  /\ Py.has_char "-" (param_text (Some (Int n))) = false.
Proof.
  split; [apply to_write_shape|]. split; [|split].
  - unfold param_text. simpl String.length. now rewrite scalar_text_length.
  - unfold param_text. simpl.
    apply all_chars_impl with (2 := scalar_text_digits n).
    intros c ->. reflexivity.
  - unfold param_text. rewrite has_char_app. simpl.
    unfold Py.has_char. rewrite negb_false_iff.
    apply all_chars_impl with (2 := scalar_text_digits n).
    intros c Hc. rewrite negb_true_iff.
    destruct c as [[|] [|] [|] [|] [|] [|] [|] [|]]; vm_compute in Hc;
      try discriminate Hc; reflexivity.
Qed.

(** X8. [get_analog_in], [set_digital_out] and [set_loop_count] each write
    the same bytes and end alike for all arguments from -9 to 99: the
    frame is the opcode, a space and the terminator. *)
Theorem small_scalars_indistinguishable (self : Usc3.self_) (a b : Z)
  (w : world) :
  -9 <= a <= 99 ->
  -9 <= b <= 99 ->
  Usc3.get_analog_in self a w = Usc3.get_analog_in self b w
  /\ Usc3.set_digital_out self a w = Usc3.set_digital_out self b w
  /\ Usc3.set_loop_count self a w = Usc3.set_loop_count self b w
  /\ Usc3.to_write "AIN" (Some (Int a)) = Some (CRLF_ "AIN ")
  /\ Usc3.to_write "OOF" (Some (Int a)) = Some (CRLF_ "OOF ")
  /\ Usc3.to_write "AC" (Some (Int a)) = Some (CRLF_ "AC ").
Proof.
  intros Ha Hb.
  unfold Usc3.get_analog_in, Usc3.set_digital_out, Usc3.set_loop_count.
  rewrite !(small_scalar_command self _ a w Ha).
  rewrite !(small_scalar_command self _ b w Hb).
  rewrite !to_write_shape, !(small_scalar_text a Ha).
  repeat split.
Qed.

Lemma small_scalars_indistinguishable_witness :
  -9 <= 3 <= 99 /\ -9 <= 42 <= 99
  /\ Usc3.get_analog_in a_client 3 (a_line (LF_ "0"))
     = Usc3.get_analog_in a_client 42 (a_line (LF_ "0"))
  /\ Usc3.set_digital_out a_client 3 (a_line (LF_ "0"))
     = Usc3.set_digital_out a_client 42 (a_line (LF_ "0"))
  /\ Usc3.set_loop_count a_client 3 (a_line (LF_ "0"))
     = Usc3.set_loop_count a_client 42 (a_line (LF_ "0"))
  /\ Usc3.to_write "AIN" (Some (Int 3)) = Some (CRLF_ "AIN ")
  /\ Usc3.to_write "OOF" (Some (Int 3)) = Some (CRLF_ "OOF ")
  /\ Usc3.to_write "AC" (Some (Int 3)) = Some (CRLF_ "AC ").
Proof.
  split; [lia|]. split; [lia|].
  exact (small_scalars_indistinguishable a_client 3 42 (a_line (LF_ "0"))
           ltac:(lia) ltac:(lia)).
Defined.

(** X9. [set_laser_disable_flag] writes the same bytes, [FLAGS], a space
    and the terminator, for every input pin from 2 to 15 and either
    trigger mode, and ends alike for all of them. *)
Theorem disable_flag_frames_coincide (self : Usc3.self_) (p t p' t' : Z)
  (w : world) :
  2 <= p <= 15 -> t = 0x00 \/ t = 0x10 ->
  2 <= p' <= 15 -> t' = 0x00 \/ t' = 0x10 ->
  Usc3.set_laser_disable_flag self p t w
  = Usc3.set_laser_disable_flag self p' t' w
  /\ Usc3.to_write "FLAGS" (Some (Int (Usc3.flags_word p t)))
     = Some (CRLF_ "FLAGS ").
Proof.
  intros Hp Ht Hp' Ht'. unfold Usc3.set_laser_disable_flag, Usc3.flags_word.
  assert (H : -9 <= p + t <= 99) by (destruct Ht; lia).
  assert (H' : -9 <= p' + t' <= 99) by (destruct Ht'; lia).
  rewrite (small_scalar_command self _ _ w H).
  rewrite (small_scalar_command self _ _ w H').
  rewrite to_write_shape, (small_scalar_text _ H). split; reflexivity.
Qed.

Lemma disable_flag_frames_coincide_witness :
  2 <= 6 <= 15 /\ (16 = 0x00 \/ 16 = 0x10)
  /\ 2 <= 15 <= 15 /\ (0 = 0x00 \/ 0 = 0x10)
  /\ Usc3.set_laser_disable_flag a_client 6 16 (a_line (LF_ "0"))
     = Usc3.set_laser_disable_flag a_client 15 0 (a_line (LF_ "0"))
  /\ Usc3.to_write "FLAGS" (Some (Int (Usc3.flags_word 6 16)))
     = Some (CRLF_ "FLAGS ").
Proof.
  split; [lia|]. split; [now right|]. split; [lia|]. split; [now left|].
  exact (disable_flag_frames_coincide a_client 6 16 15 0 (a_line (LF_ "0"))
           ltac:(lia) (or_intror eq_refl) ltac:(lia) (or_introl eq_refl)).
Defined.

(* ===================================================================== *)
(** * Sequence frames tell their lists apart *)
(* ===================================================================== *)

Section SequenceFrames.

Lemma append_cancel_l (a b c : string) : a ++ b = a ++ c -> b = c.
Proof. induction a as [|x a IH]; simpl; [auto|]. intros [= H]. auto. Qed.

Lemma append_cancel_r (a b c : string) : a ++ c = b ++ c -> a = b.
Proof.
  revert b. induction a as [|x a IH]; intros [|y b] H; simpl in H.
  - reflexivity.
  - apply (f_equal String.length) in H. simpl in H.
    rewrite length_append in H. lia.
  - apply (f_equal String.length) in H. simpl in H.
    rewrite length_append in H. lia.
  - injection H as -> H. f_equal. now apply IH.
Qed.

Lemma join_nonempty (sep s : string) (l : list string) :
  s <> "" -> Py.join sep (s :: l) <> "".
Proof.
  intros Hs. unfold Py.join. simpl.
  destruct l; [exact Hs|]. destruct s; [congruence|discriminate].
Qed.

Lemma joined_text_inj (v1 v2 : list Z) :
  Py.join " " (map Py.str_int v1) = Py.join " " (map Py.str_int v2) ->
  v1 = v2.
Proof.
  intros H. destruct v1 as [|a v1], v2 as [|b v2].
  - reflexivity.
  - symmetry in H. simpl map in H.
    now apply join_nonempty in H; [|apply str_int_nonempty].
  - simpl map in H.
    now apply join_nonempty in H; [|apply str_int_nonempty].
  - apply (f_equal Usc3.int_fields) in H.
    rewrite !int_fields_join in H by discriminate. congruence.
Qed.

End SequenceFrames.

(** X10. Two lists that give the same frame under the same opcode are the
    same list: the frame of a list parameter determines the list, the
    empty one included. *)
Theorem sequence_frame_injective (data : string) (v1 v2 : list Z) :
  Usc3.to_write data (Some (Seq v1)) = Usc3.to_write data (Some (Seq v2)) ->
  v1 = v2.
Proof.
  rewrite !to_write_sequence. intros [= H].
  apply append_cancel_l in H. injection H as H.
  apply append_cancel_r in H. now apply joined_text_inj.
Qed.

Lemma sequence_frame_injective_witness :
  Usc3.to_write "HP" (Some (Seq [1; 23]))
  = Usc3.to_write "HP" (Some (Seq [1; 23]))
  /\ [1; 23] = [1; 23].
Proof.
  split; [reflexivity|].
  exact (sequence_frame_injective "HP" [1; 23] [1; 23] eq_refl).
Defined.

(** Two lists that differ only in how the digits are grouped give
    different frames, while the scalars 1 and 23 give the same one. *)
Example frames_of_lists_and_scalars :
  Usc3.to_write "HP" (Some (Seq [1; 23])) = Some (CRLF_ "HP 1 23")
  /\ Usc3.to_write "HP" (Some (Seq [12; 3])) = Some (CRLF_ "HP 12 3")
  /\ Usc3.to_write "HP" (Some (Int 1)) = Usc3.to_write "HP" (Some (Int 23)).
Proof. repeat split; reflexivity. Qed.

(* ===================================================================== *)
(** * Connecting *)
(* ===================================================================== *)

Section Connecting.

Lemma len_zero (s : string) : (Py.len s =? 0) = true <-> s = "".
Proof.
  unfold Py.len. destruct s; simpl; split; intros H;
    try reflexivity; try discriminate.
Qed.

Lemma connect_after_seek (self : Usc3.self_) (w : world)
  (before : list Usc3.device_entry) (d : Usc3.device_entry) :
  filter (wanted self) (Usc3.devices (visible w)) = (before ++ [d])%list ->
  Usc3.connect self w
  = if Py.len (Usc3.PORT d) =? 0
    then Return (None, self)
           {| visible := visible w; opened := opened w;
              stdout := (stdout w
                         ++ ["USC-3 Laser Control Device Not Found."])%list;
              tx := tx w; rx := rx w |}
    else Return (Some {| ser_port := Usc3.PORT d;
                         ser_baudrate := SCAPS_BAUD_RATE |},
                 {| Usc3.serial_number := Usc3.serial_number self;
                    Usc3.port := Some (Usc3.PORT d);
                    Usc3.serial := Usc3.serial self |})
           {| visible := visible w;
              opened := (opened w
                         ++ [{| ser_port := Usc3.PORT d;
                                ser_baudrate := SCAPS_BAUD_RATE |}])%list;
              stdout := stdout w; tx := tx w; rx := rx w |}.
Proof.
  intros E. unfold Usc3.connect, bind.
  rewrite (port_seek_last self w before d E).
  destruct (Py.len (Usc3.PORT d) =? 0); reflexivity.
Qed.

End Connecting.

(** X11. When the last wanted device has a port name that is not empty,
    [connect] opens that port, once, at 115200 baud, records the name in
    [port], prints nothing and returns the open port; the constructor
    called without a port yields a client that holds it. *)
Theorem connect_opens_last_wanted (self : Usc3.self_) (w : world)
  (before : list Usc3.device_entry) (d : Usc3.device_entry) :
  filter (wanted self) (Usc3.devices (visible w)) = (before ++ [d])%list ->
  Usc3.PORT d <> "" ->
  let s := {| ser_port := Usc3.PORT d; ser_baudrate := 115200 |} in
  let w' := {| visible := visible w; opened := (opened w ++ [s])%list;
               stdout := stdout w; tx := tx w; rx := rx w |} in
  Usc3.connect self w
  = Return (Some s, {| Usc3.serial_number := Usc3.serial_number self;
                       Usc3.port := Some (Usc3.PORT d);
                       Usc3.serial := Usc3.serial self |}) w'
  /\ Usc3.__init__ (Usc3.serial_number self) None w
     = Return {| Usc3.serial_number := Usc3.serial_number self;
                 Usc3.port := Some (Usc3.PORT d);
                 Usc3.serial := Some s |} w'.
Proof.
  intros E Hp s w'.
  assert (Hl : (Py.len (Usc3.PORT d) =? 0) = false).
  { apply not_true_is_false. intros H. now apply len_zero in H. }
  split.
  - rewrite (connect_after_seek self w before d E), Hl. reflexivity.
  - unfold Usc3.__init__, bind.
    pose proof (connect_after_seek (new_client (Usc3.serial_number self))
                  w before d E) as Hc.
    unfold new_client in Hc. rewrite Hc, Hl. reflexivity.
Qed.

Lemma connect_opens_last_wanted_witness :
  filter (wanted (new_client (Some "A1")))
         (Usc3.devices (visible (a_host four_ports)))
  = ([] ++ [{| Usc3.PORT := "/dev/ttyACM0"; Usc3.VID := Some 0x2341;
               Usc3.SN := Some "A1" |}])%list
  /\ "/dev/ttyACM0" <> ""
  /\ Usc3.connect (new_client (Some "A1")) (a_host four_ports)
     = Return (Some a_port,
               {| Usc3.serial_number := Some "A1";
                  Usc3.port := Some "/dev/ttyACM0"; Usc3.serial := None |})
         {| visible := four_ports; opened := [a_port]; stdout := [];
            tx := ""; rx := "" |}
  /\ Usc3.__init__ (Some "A1") None (a_host four_ports)
     = Return {| Usc3.serial_number := Some "A1";
                 Usc3.port := Some "/dev/ttyACM0";
                 Usc3.serial := Some a_port |}
         {| visible := four_ports; opened := [a_port]; stdout := [];
            tx := ""; rx := "" |}.
Proof.
  split; [reflexivity|]. split; [discriminate|].
  exact (connect_opens_last_wanted (new_client (Some "A1")) (a_host four_ports)
           [] {| Usc3.PORT := "/dev/ttyACM0"; Usc3.VID := Some 0x2341;
                 Usc3.SN := Some "A1" |}
           eq_refl ltac:(discriminate)).
Defined.

(** X12. [connect] reaches its message only when the last wanted device
    has an empty port name: then it prints the message, opens nothing,
    leaves [port] alone and returns [None], and the constructor yields a
    client without a port. *)
Theorem connect_not_found_branch (self : Usc3.self_) (w : world)
  (before : list Usc3.device_entry) (d : Usc3.device_entry) :
  filter (wanted self) (Usc3.devices (visible w)) = (before ++ [d])%list ->
  Usc3.PORT d = "" ->
  let w' := {| visible := visible w; opened := opened w;
               stdout := (stdout w
                          ++ ["USC-3 Laser Control Device Not Found."])%list;
               tx := tx w; rx := rx w |} in
  Usc3.connect self w = Return (None, self) w'
  /\ Usc3.__init__ (Usc3.serial_number self) None w
     = Return {| Usc3.serial_number := Usc3.serial_number self;
                 Usc3.port := None; Usc3.serial := None |} w'.
Proof.
  intros E Hp w'.
  assert (Hl : (Py.len (Usc3.PORT d) =? 0) = true) by now apply len_zero.
  split.
  - rewrite (connect_after_seek self w before d E), Hl. reflexivity.
  - unfold Usc3.__init__, bind.
    pose proof (connect_after_seek (new_client (Usc3.serial_number self))
                  w before d E) as Hc.
    unfold new_client in Hc. rewrite Hc, Hl. reflexivity.
Qed.

Lemma connect_not_found_branch_witness :
  filter (wanted (new_client None))
         (Usc3.devices
            (visible (a_host [{| list_ports.device := "";
                                 list_ports.vid := Some 0x2341;
                                 list_ports.serial_number := None |}])))
  = ([] ++ [{| Usc3.PORT := ""; Usc3.VID := Some 0x2341;
               Usc3.SN := None |}])%list
  /\ Usc3.PORT {| Usc3.PORT := ""; Usc3.VID := Some 0x2341; Usc3.SN := None |}
     = ""
  /\ Usc3.connect (new_client None)
       (a_host [{| list_ports.device := ""; list_ports.vid := Some 0x2341;
                   list_ports.serial_number := None |}])
     = Return (None, new_client None)
         {| visible := [{| list_ports.device := "";
                           list_ports.vid := Some 0x2341;
                           list_ports.serial_number := None |}];
            opened := [];
            stdout := ["USC-3 Laser Control Device Not Found."];
            tx := ""; rx := "" |}
  /\ Usc3.__init__ None None
       (a_host [{| list_ports.device := ""; list_ports.vid := Some 0x2341;
                   list_ports.serial_number := None |}])
     = Return (new_client None)
         {| visible := [{| list_ports.device := "";
                           list_ports.vid := Some 0x2341;
                           list_ports.serial_number := None |}];
            opened := [];
            stdout := ["USC-3 Laser Control Device Not Found."];
            tx := ""; rx := "" |}.
Proof.
  split; [reflexivity|]. split; [reflexivity|].
  exact (connect_not_found_branch (new_client None)
           (a_host [{| list_ports.device := ""; list_ports.vid := Some 0x2341;
                       list_ports.serial_number := None |}])
           [] {| Usc3.PORT := ""; Usc3.VID := Some 0x2341; Usc3.SN := None |}
           eq_refl eq_refl).
Defined.

Lemma port_seek_returns_only_wanted_witness :
  Usc3._port_seek (new_client (Some "B2")) (a_host four_ports)
  = Return "/dev/ttyACM1" (a_host four_ports)
  /\ a_host four_ports = a_host four_ports
  /\ exists d, In d (Usc3.devices (visible (a_host four_ports)))
               /\ wanted (new_client (Some "B2")) d = true
               /\ Usc3.PORT d = "/dev/ttyACM1".
Proof.
  split; [reflexivity|].
  exact (port_seek_returns_only_wanted (new_client (Some "B2"))
           (a_host four_ports) (a_host four_ports) "/dev/ttyACM1" eq_refl).
Defined.

(* ===================================================================== *)
(** * More on the output-pin mask *)
(* ===================================================================== *)

Section MaskAlgebra.

Lemma sum_cons (a : Z) (l : list Z) : Py.sum (a :: l) = a + Py.sum l.
Proof. unfold Py.sum. simpl. rewrite !fold_left_add. lia. Qed.

Lemma pins_cons (p : Z) (S : list Z) :
  Usc3.pins (p :: S)
  = match Py.pow2 (p - 1), Usc3.pins S with
    | Some a, Some m => Some (a + m)
    | _, _ => None
    end.
Proof.
  unfold Usc3.pins. simpl map. simpl all_some.
  destruct (Py.pow2 (p - 1)) as [a|]; [|reflexivity].
  destruct (all_some (map (fun pin => Py.pow2 (pin - 1)) S)) as [l|];
    [|reflexivity].
  simpl. now rewrite sum_cons.
Qed.

Lemma pins_app (S1 S2 : list Z) :
  Usc3.pins (S1 ++ S2)%list
  = match Usc3.pins S1, Usc3.pins S2 with
    | Some a, Some b => Some (a + b)
    | _, _ => None
    end.
Proof.
  induction S1 as [|p S1 IH].
  - simpl app. change (Usc3.pins []) with (Some 0).
    now destruct (Usc3.pins S2).
  - simpl app. rewrite !pins_cons, IH.
    destruct (Py.pow2 (p - 1)), (Usc3.pins S1), (Usc3.pins S2);
      try reflexivity.
    f_equal. lia.
Qed.

Lemma pins_none (S : list Z) :
  Usc3.pins S = None <-> exists p, In p S /\ p < 1.
Proof.
  induction S as [|p S IH].
  - split; [discriminate|]. now intros (p & [] & _).
  - rewrite pins_cons. unfold Py.pow2.
    destruct (Z.leb_spec 0 (p - 1)) as [Hp|Hp].
    + destruct (Usc3.pins S) as [m|].
      * split; [discriminate|]. intros (q & [<-|Hq] & Hlt); [lia|].
        destruct IH as [_ IH].
        discriminate (IH (ex_intro _ q (conj Hq Hlt))).
      * split; [|reflexivity]. intros _.
        destruct IH as [IH _]. destruct (IH eq_refl) as (q & Hq & Hlt).
        exists q. split; [now right|exact Hlt].
    + split; [|reflexivity]. intros _. exists p. split; [now left|lia].
Qed.

Lemma mask_of_pins_permutation (S1 S2 : list Z) :
  Permutation S1 S2 -> mask_of_pins S1 = mask_of_pins S2.
Proof.
  induction 1 as [|p S1 S2 _ IH|p q S|S1 S2 S3 _ IH1 _ IH2]; simpl; lia.
Qed.

End MaskAlgebra.

(** X13. For pins from 1 upwards the mask does not depend on the order in
    which the pins are given: two lists with the same pins, each as often,
    give the same integer, and [set_pulse] does the same with both. *)
Theorem output_mask_ignores_order (W : Type) (self : Usc3.self_)
  (S1 S2 : list Z) (pulse_width : W) :
  Permutation S1 S2 ->
  (forall p, In p S1 -> 1 <= p) ->
  Usc3.pins S1 = Some (mask_of_pins S1)
  /\ Usc3.pins S2 = Some (mask_of_pins S1)
  /\ Usc3.set_pulse self S1 pulse_width = Usc3.set_pulse self S2 pulse_width.
Proof.
  intros Hperm H1.
  assert (H2 : forall p, In p S2 -> 1 <= p).
  { intros p Hp. apply H1. apply Permutation_in with (l := S2); [|exact Hp].
    now apply Permutation_sym. }
  assert (E1 : Usc3.pins S1 = Some (mask_of_pins S1))
    by now apply pins_mask_of_pins.
  assert (E2 : Usc3.pins S2 = Some (mask_of_pins S1)).
  { rewrite (mask_of_pins_permutation S1 S2 Hperm).
    now apply pins_mask_of_pins. }
  split; [exact E1|]. split; [exact E2|].
  unfold Usc3.set_pulse. now rewrite E1, E2.
Qed.

Lemma output_mask_ignores_order_witness :
  Permutation [1; 3; 22] [22; 1; 3]
  /\ (forall p, In p [1; 3; 22] -> 1 <= p)
  /\ Usc3.pins [1; 3; 22] = Some 2097157
  /\ Usc3.pins [22; 1; 3] = Some 2097157
  /\ Usc3.set_pulse a_client [1; 3; 22] 250
     = Usc3.set_pulse a_client [22; 1; 3] 250.
Proof.
  assert (H : Permutation [1; 3; 22] [22; 1; 3]).
  { apply Permutation_sym. apply (Permutation_cons_app [1; 3] [] 22).
    apply Permutation_refl. }
  assert (Hr : forall p, In p [1; 3; 22] -> 1 <= p)
    by (simpl; intros p [<-|[<-|[<-|[]]]]; lia).
  split; [exact H|]. split; [exact Hr|].
  exact (output_mask_ignores_order Z a_client [1; 3; 22] [22; 1; 3] 250 H Hr).
Defined.

(** X14. The mask of two lists put end to end is the sum of their masks,
    so a pin given twice counts twice: the mask of [[p; p]] is [2^p], the
    bit of pin [p + 1]. *)
Theorem output_mask_adds_up (S1 S2 : list Z) (m1 m2 : Z) :
  Usc3.pins S1 = Some m1 ->
  Usc3.pins S2 = Some m2 ->
  Usc3.pins (S1 ++ S2)%list = Some (m1 + m2)
  /\ (forall p, 1 <= p -> Usc3.pins [p; p] = Usc3.pins [p + 1]).
Proof.
  intros H1 H2. split; [now rewrite pins_app, H1, H2|].
  intros p Hp. rewrite !pins_cons. change (Usc3.pins []) with (Some 0).
  unfold Py.pow2.
  destruct (Z.leb_spec 0 (p - 1)) as [_|]; [|lia].
  destruct (Z.leb_spec 0 (p + 1 - 1)) as [_|]; [|lia].
  f_equal. replace (p + 1 - 1) with (Z.succ (p - 1)) by lia.
  rewrite Z.pow_succ_r by lia. lia.
Qed.

Lemma output_mask_adds_up_witness :
  Usc3.pins [1; 3] = Some 5
  /\ Usc3.pins [3; 7] = Some 68
  /\ Usc3.pins ([1; 3] ++ [3; 7])%list = Some (5 + 68)
  /\ (forall p, 1 <= p -> Usc3.pins [p; p] = Usc3.pins [p + 1]).
Proof.
  split; [reflexivity|]. split; [reflexivity|].
  exact (output_mask_adds_up [1; 3] [3; 7] 5 68 eq_refl eq_refl).
Defined.

(** X15. The mask is an integer exactly when every pin is at least 1: a
    pin of 0 or below makes [2**(pin-1)], and with it the sum, a float. *)
Theorem output_mask_integer_iff (S : list Z) :
  (exists m, Usc3.pins S = Some m) <-> (forall p, In p S -> 1 <= p).
Proof.
  split.
  - intros (m & Hm) p Hp.
    destruct (Z_lt_le_dec p 1) as [Hlt|Hle]; [|exact Hle].
    assert (Hn : Usc3.pins S = None) by (apply pins_none; now exists p).
    congruence.
  - intros H. destruct (Usc3.pins S) as [m|] eqn:E; [now exists m|].
    apply pins_none in E as (p & Hp & Hlt). apply H in Hp. lia.
Qed.

(* ===================================================================== *)
(** * More on the flag word *)
(* ===================================================================== *)

(** X16. For input pins from 0 to 15 and a trigger mode of [0x00] or
    [0x10] the sum carries nothing into the mode bit: the word equals the
    bit-wise or of pin and mode, and two such words are equal only for the
    same pin and the same mode. *)
Theorem disable_flag_word_no_carry (p t p' t' : Z) :
  0 <= p <= 15 -> t = 0x00 \/ t = 0x10 ->
  0 <= p' <= 15 -> t' = 0x00 \/ t' = 0x10 ->
  Usc3.flags_word p t = Z.lor p t
  /\ (Usc3.flags_word p t = Usc3.flags_word p' t' -> p = p' /\ t = t').
Proof.
  intros Hp Ht Hp' Ht'. unfold Usc3.flags_word. split.
  - assert (Hc : In p [0; 1; 2; 3; 4; 5; 6; 7; 8; 9; 10; 11; 12; 13; 14; 15])
      by (simpl; lia).
    simpl in Hc.
    repeat (destruct Hc as [<-|Hc]; [destruct Ht as [->| ->]; reflexivity|]).
    contradiction.
  - destruct Ht as [->| ->], Ht' as [->| ->]; lia.
Qed.

Lemma disable_flag_word_no_carry_witness :
  0 <= 6 <= 15 /\ (16 = 0x00 \/ 16 = 0x10)
  /\ 0 <= 6 <= 15 /\ (16 = 0x00 \/ 16 = 0x10)
  /\ Usc3.flags_word 6 16 = Z.lor 6 16
  /\ (Usc3.flags_word 6 16 = Usc3.flags_word 6 16 -> 6 = 6 /\ 16 = 16).
Proof.
  split; [lia|]. split; [now right|]. split; [lia|]. split; [now right|].
  exact (disable_flag_word_no_carry 6 16 6 16
           ltac:(lia) (or_intror eq_refl) ltac:(lia) (or_intror eq_refl)).
Defined.

(* ===================================================================== *)
(** * The table of status codes *)
(* ===================================================================== *)

Section StatusTable.

Lemma int_of_key (i : Z) (k : string) (n : Z) :
  Py.str_int i = k -> Py.int k = Some n -> i = n.
Proof. intros <-. rewrite int_str_int. congruence. Qed.

End StatusTable.

(** X17. The [str] keys of [comm_codes] are the decimal texts of the
    integers from 0 to 18 and nothing else: looked up with the [str] of an
    integer, the table answers exactly for 0 to 18, and never with a
    [bytes] object. *)
Theorem comm_codes_keys (i : Z) :
  dict_in (Str (Py.str_int i)) Usc3.comm_codes = (0 <=? i) && (i <=? 18)
  /\ (forall d, dict_get Usc3.comm_codes (Str (Py.str_int i)) = Some d ->
                exists s, d = Str s)
  /\ dict_get Usc3.comm_codes (Bytes (Py.str_int i)) = None.
Proof.
  split; [|split].
  - destruct ((0 <=? i) && (i <=? 18)) eqn:E.
    + apply andb_true_iff in E as [H0 H18].
      apply Z.leb_le in H0. apply Z.leb_le in H18.
      assert (Hc : In i [0; 1; 2; 3; 4; 5; 6; 7; 8; 9; 10; 11; 12; 13; 14;
                         15; 16; 17; 18]) by (simpl; lia).
      simpl in Hc.
      repeat (destruct Hc as [<-|Hc]; [reflexivity|]). contradiction.
    + apply not_true_is_false. intros H.
      apply existsb_exists in H as ([k d] & Hin & Hk).
      simpl in Hin.
      assert (Hr : 0 <= i <= 18).
      { repeat (destruct Hin as [[= <- <-]|Hin];
                [cbn [fst text_eqb] in Hk; apply String.eqb_eq in Hk;
                 pose proof (int_of_key i _ _ Hk eq_refl) as Hi;
                 vm_compute in Hi; lia|]).
        contradiction. }
      apply andb_false_iff in E as [E|E];
        [apply Z.leb_gt in E|apply Z.leb_gt in E]; lia.
  - intros d H. unfold dict_get in H.
    destruct (find _ Usc3.comm_codes) as [[k v]|] eqn:F; [|discriminate].
    apply find_some in F as [Hin _]. injection H as <-. simpl.
    simpl in Hin.
    repeat (destruct Hin as [[= <- <-]|Hin]; [eexists; reflexivity|]).
    contradiction.
  - reflexivity.
Qed.

(* ===================================================================== *)
(** * Frames with and without a parameter *)
(* ===================================================================== *)

Section ParameterText.

Lemma param_text_chars (val : option param) :
  Py.all_chars (fun c => numeral_char c || Ascii.eqb c " ") (param_text val)
  = true.
Proof.
  destruct val as [[n|v]|]; [| |reflexivity]; unfold param_text.
  - rewrite all_chars_app. simpl.
    apply all_chars_impl with (p := numeral_char).
    + intros c ->. reflexivity.
    + apply all_chars_slice, str_int_chars.
  - rewrite all_chars_app. simpl. apply join_chars; [reflexivity|].
    apply Forall_forall. intros s Hs. apply in_map_iff in Hs as (n & <- & _).
    apply all_chars_impl with (2 := str_int_chars n). intros c ->. reflexivity.
Qed.

Lemma param_text_without (c : ascii) (val : option param) :
  numeral_char c || Ascii.eqb c " " = false ->
  Py.has_char c (param_text val) = false.
Proof.
  intros Hc. unfold Py.has_char. rewrite negb_false_iff.
  apply all_chars_impl with (2 := param_text_chars val).
  intros x Hx. rewrite negb_true_iff.
  destruct (Ascii.eqb_spec x c) as [->|]; congruence.
Qed.

End ParameterText.

(** X18. Whatever the parameter, the text between opcode and terminator
    holds digits, minus signs and spaces only: no carriage return, no line
    feed, no comma and no bracket, so the terminator of a frame is its
    only one unless the opcode holds another. *)
Theorem frame_text_is_clean (data : string) (val : option param) :
  Usc3.to_write data val = Some (data ++ param_text val ++ Usc3._trm)
  /\ Py.all_chars (fun c => is_digit c || Ascii.eqb c "-" || Ascii.eqb c " ")
       (param_text val) = true
  /\ Py.has_char Py.CR (param_text val) = false
  /\ Py.has_char Py.LF (param_text val) = false
  /\ plain (param_text val) = true.
Proof.
  split; [apply to_write_shape|]. split; [apply param_text_chars|].
  split; [now apply param_text_without|].
  split; [now apply param_text_without|].
  apply all_chars_impl with (2 := param_text_chars val).
  intros c Hc. apply orb_true_iff in Hc as [Hc|Hc].
  - now apply numeral_char_facts.
  - apply Ascii.eqb_eq in Hc. now subst c.
Qed.

(** X19. A command with a parameter never writes the frame of the same
    opcode without one: the space after the opcode is always there, so
    [set_home_position], [set_digital_out] and [set_pulse] cannot be taken
    for [get_home_position], [get_digital_out] and [get_pulse]. *)
Theorem parameter_frame_differs_from_query (data : string) (val : param) :
  Usc3.to_write data (Some val) <> Usc3.to_write data None.
Proof.
  rewrite !to_write_shape. intros [= H]. apply append_cancel_l in H.
  destruct val; discriminate H.
Qed.

(* ===================================================================== *)
(** * Pulses on the opto-insulated outputs *)
(* ===================================================================== *)

(** X20. For every duplicate-free choice among the output pins 1 to 6,
    [set_pulse] ends as it does for no pin at all and writes the same
    bytes: the mask stays below 100 and none of its digits reaches the
    line. *)
Theorem opto_pulse_frames_coincide (W : Type) (self : Usc3.self_)
  (S : list Z) (pulse_width : W) (w : world) :
  NoDup S ->
  (forall p, In p S -> 1 <= p <= 6) ->
  Usc3.set_pulse self S pulse_width w = Usc3.set_pulse self [] pulse_width w
  /\ Usc3.pins S = Some (mask_of_pins S)
  /\ 0 <= mask_of_pins S < 64
  /\ Usc3.to_write "LPJ" (Some (Int (mask_of_pins S))) = Some (CRLF_ "LPJ ").
Proof.
  intros Hnd Hr.
  assert (H1 : forall p, In p S -> 1 <= p) by (intros p Hp; apply Hr in Hp; lia).
  assert (Hm : 0 <= mask_of_pins S < 64).
  { split; [apply mask_of_pins_nonneg|].
    apply (low_bits_bound _ 6); [apply mask_of_pins_nonneg|lia|].
    intros k Hk. rewrite mask_of_pins_bits by (auto; lia).
    apply not_true_is_false. intros Hex.
    apply existsb_exists in Hex as (q & Hq & E).
    apply Z.eqb_eq in E. apply Hr in Hq. lia. }
  assert (Hs : -9 <= mask_of_pins S <= 99) by lia.
  split; [|split; [now apply pins_mask_of_pins|split; [exact Hm|]]].
  - unfold Usc3.set_pulse. rewrite (pins_mask_of_pins S H1).
    change (Usc3.pins []) with (Some 0).
    now apply small_scalar_command.
  - now rewrite to_write_shape, small_scalar_text.
Qed.

Lemma opto_pulse_frames_coincide_witness :
  NoDup [1; 3]
  /\ (forall p, In p [1; 3] -> 1 <= p <= 6)
  /\ Usc3.set_pulse a_client [1; 3] 250 (a_line (LF_ "0"))
     = Usc3.set_pulse a_client [] 250 (a_line (LF_ "0"))
  /\ Usc3.pins [1; 3] = Some (mask_of_pins [1; 3])
  /\ 0 <= mask_of_pins [1; 3] < 64
  /\ Usc3.to_write "LPJ" (Some (Int (mask_of_pins [1; 3])))
     = Some (CRLF_ "LPJ ").
Proof.
  assert (Hnd : NoDup [1; 3])
    by (repeat constructor; simpl; intuition discriminate).
  assert (Hr : forall p, In p [1; 3] -> 1 <= p <= 6)
    by (simpl; intros p [<-|[<-|[]]]; lia).
  split; [exact Hnd|]. split; [exact Hr|].
  exact (opto_pulse_frames_coincide Z a_client [1; 3] 250 (a_line (LF_ "0"))
           Hnd Hr).
Defined.
